(** * Root extractor of the article parser: selector resolution and
      field orchestration

    Shallow embedding of [src/extractors/root-extractor.js].

    The extractor runs against a live, mutable document held by a query
    handle (written [$] in the source).  The handle, the per-type cleaners,
    the generic extractor, the node converter and the markdown converter
    are collaborators that live outside the file: they are taken as
    parameters ([Dom], [Collaborators]).  The six functions of the file
    are written over these parameters in a state-and-exception monad: the
    state is the document behind [$], the exception is a JavaScript
    [TypeError] or anything a collaborator throws. *)

From Stdlib Require Import List String Ascii ZArith Bool Arith Lia.
Import ListNotations.
Local Open Scope string_scope.
Local Open Scope list_scope.

(** ** JavaScript values *)

(** A node handle.  Node identity is all the extractor relies on. *)
Definition ref := nat.

(** The values that flow through the extractor.  [VSel] is a selection
    (the array-like object the query handle returns), [VObj] a plain
    object with its keys in insertion order. *)
#[warnings="-register-all"]
Inductive value : Type :=
| VUndefined
| VNull
| VBool (b : bool)
| VNum (n : Z)
| VNaN
| VStr (s : string)
| VSel (nodes : list ref)
| VObj (fields : list (string * value)).

(** [ToBoolean]: what [if (v)], [!v], [a && b] and [a || b] test. *)
Definition truthy (v : value) : bool :=
  match v with
  | VUndefined | VNull | VNaN => false
  | VBool b => b
  | VNum n => negb (n =? 0)%Z
  | VStr s => negb (s =? EmptyString)
  | VSel _ | VObj _ => true
  end.

(** A destructuring default [{ k = dflt }]: used only when the key is
    [undefined]. *)
Definition default_to (dflt v : value) : value :=
  match v with
  | VUndefined => dflt
  | _ => v
  end.

(** [v === 'lit'] for a string literal. *)
Definition is_string (lit : string) (v : value) : bool :=
  match v with
  | VStr s => s =? lit
  | _ => false
  end.

Fixpoint lookup_key (k : string) (fields : list (string * value)) : option value :=
  match fields with
  | [] => None
  | (k', v) :: rest => if k' =? k then Some v else lookup_key k rest
  end.

(** Property read [v.k] on a value that is neither [null] nor
    [undefined]: a missing key reads [undefined], and so does any key of
    a primitive. *)
Definition get_prop (v : value) (k : string) : value :=
  match v with
  | VObj fields =>
      match lookup_key k fields with
      | Some x => x
      | None => VUndefined
      end
  | _ => VUndefined
  end.

(** ** Strings *)

(** Strings are sequences of code units below 256.  The white space
    [String.prototype.trim] strips in that range: TAB, LF, VT, FF, CR,
    SPACE and NBSP. *)
Definition is_space (c : ascii) : bool :=
  let n := nat_of_ascii c in
  (((9 <=? n) && (n <=? 13)) || (n =? 32) || (n =? 160))%nat.

Fixpoint trim_start (s : string) : string :=
  match s with
  | EmptyString => EmptyString
  | String c rest => if is_space c then trim_start rest else s
  end.

Definition reverse (s : string) : string :=
  string_of_list_ascii (rev (list_ascii_of_string s)).

Definition trim (s : string) : string :=
  reverse (trim_start (reverse (trim_start s))).

(** [Array.prototype.join]. *)
Definition join (sep : string) (parts : list string) : string :=
  String.concat sep parts.

(** ** The state-and-exception monad *)

Definition M (S A : Type) : Type := S -> option (A * S).

Definition ret {S A : Type} (a : A) : M S A := fun s => Some (a, s).

Definition bind {S A B : Type} (m : M S A) (k : A -> M S B) : M S B :=
  fun s =>
    match m s with
    | Some (a, s') => k a s'
    | None => None
    end.

Definition throw {S A : Type} : M S A := fun _ => None.

(** Read the state. *)
Definition gets {S A : Type} (f : S -> A) : M S A := fun s => Some (f s, s).

(** Update the state. *)
Definition modify {S : Type} (f : S -> S) : M S unit := fun s => Some (tt, f s).

(** Update the state and return a value. *)
Definition state {S A : Type} (f : S -> A * S) : M S A := fun s => Some (f s).

(** A read that may throw. *)
Definition try_gets {S A : Type} (f : S -> option A) : M S A :=
  fun s =>
    match f s with
    | Some a => Some (a, s)
    | None => None
    end.

Declare Scope monad_scope.
Delimit Scope monad_scope with monad.
Notation "x <- c1 ;; c2" := (bind c1 (fun x => c2))
  (at level 61, c1 at next level, right associativity) : monad_scope.
Notation "c1 ;;; c2" := (bind c1 (fun _ => c2))
  (at level 61, right associativity) : monad_scope.
Local Open Scope monad_scope.

(** [forEach] / [each]: run the callback on every element, in order. *)
Fixpoint forEach {S A : Type} (f : A -> M S unit) (l : list A) : M S unit :=
  match l with
  | [] => ret tt
  | x :: rest => f x ;;; forEach f rest
  end.

(** [Array.prototype.find] with a callback that may throw: the first
    element the callback accepts, [None] (the source's [undefined]) when
    it accepts none.  The outer [None] is a thrown exception. *)
Fixpoint array_find {A : Type} (p : A -> option bool) (l : list A)
  : option (option A) :=
  match l with
  | [] => Some None
  | x :: rest =>
      match p x with
      | None => None
      | Some true => Some (Some x)
      | Some false => array_find p rest
      end
  end.

(** ** The DOM substrate *)

(** What the extractor asks of the query handle [$].  An argument of
    type [option string] is one the source may pass [undefined]. *)
Record Dom : Type := {
  doc : Type;
  (** [$(s)]: the elements of the document that match [s]. *)
  query : option string -> doc -> list ref;
  (** [$(s, ctx)]: the matches of [s] below the elements of [ctx]. *)
  find : string -> list ref -> doc -> list ref;
  (** [sel.attr(name)]. *)
  get_attr : list ref -> option string -> doc -> value;
  (** [sel.text()]. *)
  text : list ref -> doc -> string;
  (** [sel.remove()]. *)
  remove : list ref -> doc -> doc;
  (** [$('<div></div>')]. *)
  make_div : doc -> list ref * doc;
  (** [wrapper.append(element)]. *)
  append : list ref -> ref -> doc -> doc;
  (** [sel.wrap(wrapper)]. *)
  wrap : list ref -> list ref -> doc -> doc;
  (** [sel.parent()]. *)
  parent : list ref -> doc -> list ref;
  (** [$.html(x)]. *)
  static_html : value -> doc -> string;
  (** [$.text(x)]. *)
  static_text : value -> doc -> string
}.

(** ** Data model *)

(** A selector of a rule: a plain string or an array of strings. *)
Inductive selector : Type :=
| SStr (s : string)
| SArr (parts : list string).

(** [!selector]: only the empty string is falsy, an array never is. *)
Definition selector_falsy (sel : selector) : bool :=
  match sel with
  | SStr s => s =? EmptyString
  | SArr _ => false
  end.

Section Model.

Context (D : Dom).

Local Abbreviation Md := (M (doc D)).

(** A value of the [transforms] mapping: a tag name, a function of the
    wrapped node, or anything else (which the source skips). *)
Inductive transform : Type :=
| TString (tag : string)
| TFunction (f : list ref -> Md value)
| TOther.

(** A field's rule object.  [clean] and [transforms] are [None] when the
    key is missing; [transforms] lists its keys in [Reflect.ownKeys]
    order. *)
Record FieldSpec : Type := {
  selectors : list selector;
  clean : option (list string);
  transforms : option (list (string * transform));
  defaultCleaner : value
}.

(** What [extractor[type]] holds. *)
Inductive rules : Type :=
| RAbsent
| RString (s : string)
| RSpec (spec : FieldSpec).

(** A custom extractor, as far as this file reads it. *)
Record Extractor : Type := {
  domain : string;
  rulesFor : string -> rules
}.

(** The options bag.  A key the caller left out is [VUndefined]
    ([None] for [extractor], [RAbsent] for [extractionOpts]). *)
Record Opts : Type := {
  type : string;
  extractor : option Extractor;
  extractionOpts : rules;
  extractHtml : value;
  contentType : value;
  fallback : value;
  contentOnly : value;
  extractedTitle : value;
  title : value;
  content : value;
  excerpt : value;
  rest : list (string * value)
}.

Definition with_type (t : string) (o : Opts) : Opts :=
  {| type := t; extractor := extractor o; extractionOpts := extractionOpts o;
     extractHtml := extractHtml o; contentType := contentType o;
     fallback := fallback o; contentOnly := contentOnly o;
     extractedTitle := extractedTitle o; title := title o;
     content := content o; excerpt := excerpt o; rest := rest o |}.

Definition with_extractor (e : Extractor) (o : Opts) : Opts :=
  {| type := type o; extractor := Some e; extractionOpts := extractionOpts o;
     extractHtml := extractHtml o; contentType := contentType o;
     fallback := fallback o; contentOnly := contentOnly o;
     extractedTitle := extractedTitle o; title := title o;
     content := content o; excerpt := excerpt o; rest := rest o |}.

Definition with_extractionOpts (r : rules) (o : Opts) : Opts :=
  {| type := type o; extractor := extractor o; extractionOpts := r;
     extractHtml := extractHtml o; contentType := contentType o;
     fallback := fallback o; contentOnly := contentOnly o;
     extractedTitle := extractedTitle o; title := title o;
     content := content o; excerpt := excerpt o; rest := rest o |}.

Definition with_extractHtml (v : value) (o : Opts) : Opts :=
  {| type := type o; extractor := extractor o; extractionOpts := extractionOpts o;
     extractHtml := v; contentType := contentType o;
     fallback := fallback o; contentOnly := contentOnly o;
     extractedTitle := extractedTitle o; title := title o;
     content := content o; excerpt := excerpt o; rest := rest o |}.

Definition with_contentType (v : value) (o : Opts) : Opts :=
  {| type := type o; extractor := extractor o; extractionOpts := extractionOpts o;
     extractHtml := extractHtml o; contentType := v;
     fallback := fallback o; contentOnly := contentOnly o;
     extractedTitle := extractedTitle o; title := title o;
     content := content o; excerpt := excerpt o; rest := rest o |}.

Definition with_title (v : value) (o : Opts) : Opts :=
  {| type := type o; extractor := extractor o; extractionOpts := extractionOpts o;
     extractHtml := extractHtml o; contentType := contentType o;
     fallback := fallback o; contentOnly := contentOnly o;
     extractedTitle := extractedTitle o; title := v;
     content := content o; excerpt := excerpt o; rest := rest o |}.

Definition with_content (v : value) (o : Opts) : Opts :=
  {| type := type o; extractor := extractor o; extractionOpts := extractionOpts o;
     extractHtml := extractHtml o; contentType := contentType o;
     fallback := fallback o; contentOnly := contentOnly o;
     extractedTitle := extractedTitle o; title := title o;
     content := v; excerpt := excerpt o; rest := rest o |}.

Definition with_excerpt (v : value) (o : Opts) : Opts :=
  {| type := type o; extractor := extractor o; extractionOpts := extractionOpts o;
     extractHtml := extractHtml o; contentType := contentType o;
     fallback := fallback o; contentOnly := contentOnly o;
     extractedTitle := extractedTitle o; title := title o;
     content := content o; excerpt := v; rest := rest o |}.

(** Keys only a caller sets. *)
Definition with_fallback (v : value) (o : Opts) : Opts :=
  {| type := type o; extractor := extractor o; extractionOpts := extractionOpts o;
     extractHtml := extractHtml o; contentType := contentType o;
     fallback := v; contentOnly := contentOnly o;
     extractedTitle := extractedTitle o; title := title o;
     content := content o; excerpt := excerpt o; rest := rest o |}.

Definition with_contentOnly (v extractedTitle : value) (o : Opts) : Opts :=
  {| type := type o; extractor := extractor o; extractionOpts := extractionOpts o;
     extractHtml := extractHtml o; contentType := contentType o;
     fallback := fallback o; contentOnly := v;
     extractedTitle := extractedTitle; title := title o;
     content := content o; excerpt := excerpt o; rest := rest o |}.

(** The options a cleaner receives: [{ ...opts, defaultCleaner }] in the
    HTML branch, [{ ...opts, ...extractionOpts }] otherwise. *)
Inductive cleaner_opts : Type :=
| SpreadDefaultCleaner (o : Opts) (defaultCleaner : value)
| SpreadRules (o : Opts) (spec : FieldSpec).

(** The collaborators imported by the file. *)
Record Collaborators : Type := {
  (** [Cleaners[type](x, opts)]. *)
  Cleaners : string -> value -> cleaner_opts -> Md value;
  (** [GenericExtractor[type](opts)]. *)
  GenericExtractor : string -> Opts -> Md value;
  (** The generic extractor as a definition: the default of [extract]'s
      first parameter. *)
  GenericDefinition : Extractor;
  (** [extractor.extract(opts)]. *)
  extractMethod : Extractor -> Opts -> Md value;
  (** [convertNodeTo($(node), $, tag)]. *)
  convertNodeTo : list ref -> string -> Md unit;
  (** [new TurndownService().turndown(html)]. *)
  turndown : string -> string
}.

Context (C : Collaborators).

(** ** The functions of the file *)

(** Remove elements by an array of selectors (lines 7-13). *)
Definition cleanBySelectors (content : list ref) (spec : FieldSpec)
  : Md (list ref) :=
  match clean spec with
  | None => ret content
  | Some cl =>
      modify (fun d => remove D (find D (join "," cl) content d) d) ;;;
      ret content
  end.

(** One entry of the [transforms] mapping (the body of the [forEach],
    lines 20-37). *)
Definition transformEntry (content : list ref) (entry : string * transform)
  : Md unit :=
  let (key, val) := entry in
  matches <- gets (find D key content) ;;
  match val with
  | TString tag => forEach (fun node => convertNodeTo C [node] tag) matches
  | TFunction f =>
      forEach
        (fun node =>
           result <- f [node] ;;
           match result with
           | VStr tag => convertNodeTo C [node] tag
           | _ => ret tt
           end)
        matches
  | TOther => ret tt
  end.

(** Transform matching elements (lines 16-41). *)
Definition transformElements (content : list ref) (spec : FieldSpec)
  : Md (list ref) :=
  match transforms spec with
  | None => ret content
  | Some ts => forEach (transformEntry content) ts ;;; ret content
  end.

(** The callback of [selectors.find] (lines 44-66). *)
Definition selectorPredicate (d : doc D) (extractHtml : value) (sel : selector)
  : option bool :=
  match sel with
  | SArr parts =>
      if truthy extractHtml then
        Some (fold_left
                (fun acc s => acc && (0 <? List.length (query D (Some s) d))%nat)
                parts true)
      else
        let s := nth_error parts 0 in
        let attr := nth_error parts 1 in
        if (List.length (query D s d) =? 1)%nat then
          let a := get_attr D (query D s d) attr d in
          if truthy a then
            match a with
            | VStr x => Some (negb (trim x =? EmptyString))
            | _ => None
            end
          else Some false
        else Some false
  | SStr s =>
      Some ((List.length (query D (Some s) d) =? 1)%nat
            && negb (trim (text D (query D (Some s) d) d) =? EmptyString))
  end.

(** Lines 43-67. *)
Definition findMatchingSelector (d : doc D) (selectors : list selector)
    (extractHtml : value) : option (option selector) :=
  array_find (selectorPredicate d extractHtml) selectors.

(** The region of the HTML branch (lines 102-116): the matches of the
    selector, gathered in a fresh wrapper when the selector is an array,
    then wrapped in a fresh [div] whose selection is returned. *)
Definition htmlRegion (matchingSelector : selector) : Md (list ref) :=
  content <-
    match matchingSelector with
    | SArr parts =>
        content <- gets (query D (Some (join "," parts))) ;;
        wrapper <- state (make_div D) ;;
        forEach (fun element => modify (append D wrapper element)) content ;;;
        ret wrapper
    | SStr s => gets (query D (Some s))
    end ;;
  outer <- state (make_div D) ;;
  modify (wrap D content outer) ;;;
  gets (parent D content).

(** The three renderers of the HTML branch (lines 123-132).  [None]: no
    branch returned, control falls out of the [if (extractHtml)] block. *)
Definition render (contentType : value) (content : value)
  : Md (option value) :=
  if is_string "html" contentType then
    gets (fun d => Some (VStr (static_html D content d)))
  else if is_string "text" contentType then
    gets (fun d => Some (VStr (static_text D content d)))
  else if is_string "markdown" contentType then
    gets (fun d => Some (VStr (turndown C (static_html D content d))))
  else ret None.

(** The HTML branch (lines 97-133). *)
Definition htmlBranch (opts : Opts) (spec : FieldSpec)
    (matchingSelector : selector) (contentType defaultCleaner : value)
  : Md (option value) :=
  content <- htmlRegion matchingSelector ;;
  content <- transformElements content spec ;;
  content <- cleanBySelectors content spec ;;
  content <- Cleaners C (type opts) (VSel content)
               (SpreadDefaultCleaner opts defaultCleaner) ;;
  render contentType content.

(** The rest of [select] (lines 135-159). *)
Definition textBranch (opts : Opts) (spec : FieldSpec)
    (matchingSelector : selector) (defaultCleaner : value) : Md value :=
  result <-
    match matchingSelector with
    | SArr parts =>
        let selector := nth_error parts 0 in
        let attr := nth_error parts 1 in
        a <- gets (fun d => get_attr D (query D selector d) attr d) ;;
        match a with
        | VStr x => ret (trim x)
        | _ => throw
        end
    | SStr s =>
        node <- gets (query D (Some s)) ;;
        node <- cleanBySelectors node spec ;;
        node <- transformElements node spec ;;
        t <- gets (text D node) ;;
        ret (trim t)
    end ;;
  if truthy defaultCleaner then
    Cleaners C (type opts) (VStr result) (SpreadRules opts spec)
  else ret (VStr result).

(** Lines 69-160. *)
Definition select (opts : Opts) : Md value :=
  let extractHtml := default_to (VBool false) (extractHtml opts) in
  let contentType := default_to (VStr "html") (contentType opts) in
  match extractionOpts opts with
  | RAbsent => ret VNull
  | RString s => if s =? EmptyString then ret VNull else ret (VStr s)
  | RSpec spec =>
      let defaultCleaner := default_to (VBool true) (defaultCleaner spec) in
      matchingSelector <-
        try_gets (fun d => findMatchingSelector d (selectors spec) extractHtml) ;;
      match matchingSelector with
      | None => ret VNull
      | Some m =>
          if selector_falsy m then ret VNull
          else
            returned <-
              (if truthy extractHtml
               then htmlBranch opts spec m contentType defaultCleaner
               else ret None) ;;
            match returned with
            | Some v => ret v
            | None => textBranch opts spec m defaultCleaner
            end
      end
  end.

(** Lines 162-177. *)
Definition extractResult (opts : Opts) : Md value :=
  match extractor opts with
  | None => throw
  | Some ex =>
      let fallback := default_to (VBool true) (fallback opts) in
      result <- select (with_extractionOpts (rulesFor ex (type opts)) opts) ;;
      if truthy result then ret result
      else if truthy fallback then GenericExtractor C (type opts) opts
      else ret VNull
  end.

(** The default [{ url: null, domain: null }] of line 224. *)
Definition no_url_and_domain : value :=
  VObj [("url", VNull); ("domain", VNull)].

(** [RootExtractor.extract] (lines 180-240). *)
Definition extract (extractor : option Extractor) (opts : Opts) : Md value :=
  let contentType := default_to (VStr "html") (contentType opts) in
  let extractor :=
    match extractor with
    | Some e => e
    | None => GenericDefinition C
    end in
  if domain extractor =? "*" then extractMethod C extractor opts
  else
    let opts := with_extractor extractor opts in
    if truthy (contentOnly opts) then
      content <-
        extractResult
          (with_contentType contentType
             (with_title (extractedTitle opts)
                (with_extractHtml (VBool true) (with_type "content" opts)))) ;;
      ret (VObj [("content", content)])
    else
      title <- extractResult (with_type "title" opts) ;;
      date_published <- extractResult (with_type "date_published" opts) ;;
      author <- extractResult (with_type "author" opts) ;;
      next_page_url <- extractResult (with_type "next_page_url" opts) ;;
      content <-
        extractResult
          (with_title title
             (with_extractHtml (VBool true) (with_type "content" opts))) ;;
      lead_image_url <-
        extractResult (with_content content (with_type "lead_image_url" opts)) ;;
      excerpt <-
        extractResult (with_content content (with_type "excerpt" opts)) ;;
      dek <-
        extractResult
          (with_excerpt excerpt (with_content content (with_type "dek" opts))) ;;
      word_count <-
        extractResult (with_content content (with_type "word_count" opts)) ;;
      direction <- extractResult (with_title title (with_type "direction" opts)) ;;
      found <- extractResult (with_type "url_and_domain" opts) ;;
      let pair := if truthy found then found else no_url_and_domain in
      let url := get_prop pair "url" in
      let domain := get_prop pair "domain" in
      ret (VObj [("title", title);
                 ("content", content);
                 ("author", author);
                 ("date_published", date_published);
                 ("lead_image_url", lead_image_url);
                 ("dek", dek);
                 ("next_page_url", next_page_url);
                 ("url", url);
                 ("domain", domain);
                 ("excerpt", excerpt);
                 ("word_count", word_count);
                 ("direction", direction)]).

End Model.

Arguments cleanBySelectors {D} content spec.
Arguments transformEntry {D} C content entry.
Arguments transformElements {D} C content spec.
Arguments selectorPredicate {D} d extractHtml sel.
Arguments findMatchingSelector {D} d selectors extractHtml.
Arguments htmlRegion {D} matchingSelector.
Arguments render {D} C contentType content.
Arguments htmlBranch {D} C opts spec matchingSelector contentType defaultCleaner.
Arguments textBranch {D} C opts spec matchingSelector defaultCleaner.
Arguments select {D} C opts.
Arguments extractResult {D} C opts.
Arguments extract {D} C extractor opts.
Arguments no_url_and_domain : simpl never.

(** ** A tree-shaped document

    One implementation of [Dom], used to run the extractor on concrete
    pages: a forest of elements with identifiers, plus the fragments that
    [$('<div></div>')] creates outside the document. *)

#[warnings="-register-all"]
Inductive node : Type :=
| Text (s : string)
| Elem (id : ref) (tag : string) (attrs : list (string * string))
       (kids : list node).

Record tree_doc : Type := {
  document : list node;
  detached : list node;
  next_id : nat
}.

(** A selector engine: does the selector accept an element with this
    tag, these attributes and these children? *)
Definition matcher : Type :=
  string -> string -> list (string * string) -> list node -> bool.

Definition mem (i : ref) (ids : list ref) : bool := existsb (Nat.eqb i) ids.

Fixpoint assoc (k : string) (l : list (string * string)) : option string :=
  match l with
  | [] => None
  | (k', v) :: rest => if k' =? k then Some v else assoc k rest
  end.

Section Tree.

Variable matches : matcher.

(** The elements of a subtree that the selector accepts, in document
    order. *)
Fixpoint matching (q : string) (n : node) : list ref :=
  match n with
  | Text _ => []
  | Elem i t a ks =>
      (if matches q t a ks then [i] else []) ++ flat_map (matching q) ks
  end.

(** The accepted elements that lie strictly below an element of [ctx]. *)
Fixpoint matching_below (q : string) (ctx : list ref) (inside : bool)
    (n : node) : list ref :=
  match n with
  | Text _ => []
  | Elem i t a ks =>
      (if inside && matches q t a ks then [i] else [])
      ++ flat_map (matching_below q ctx (inside || mem i ctx)) ks
  end.

(** A subtree without the elements of [ids]. *)
Fixpoint prune (ids : list ref) (n : node) : list node :=
  match n with
  | Text s => [Text s]
  | Elem i t a ks =>
      if mem i ids then [] else [Elem i t a (flat_map (prune ids) ks)]
  end.

Fixpoint nodes_with (i : ref) (n : node) : list node :=
  match n with
  | Text _ => []
  | Elem j _ _ ks =>
      (if (i =? j)%nat then [n] else []) ++ flat_map (nodes_with i) ks
  end.

Definition forest (d : tree_doc) : list node := document d ++ detached d.

Definition lookup (i : ref) (d : tree_doc) : option node :=
  hd_error (flat_map (nodes_with i) (forest d)).

Fixpoint node_text (n : node) : string :=
  match n with
  | Text s => s
  | Elem _ _ _ ks => String.concat EmptyString (map node_text ks)
  end.

Definition quote : string := String "034"%char EmptyString.

Definition attrs_html (a : list (string * string)) : string :=
  String.concat EmptyString
    (map (fun kv => (" " ++ fst kv ++ "=" ++ quote ++ snd kv ++ quote)%string) a).

Fixpoint outer_html (n : node) : string :=
  match n with
  | Text s => s
  | Elem _ t a ks =>
      ("<" ++ t ++ attrs_html a ++ ">"
       ++ String.concat EmptyString (map outer_html ks)
       ++ "</" ++ t ++ ">")%string
  end.

Fixpoint graft (ws : list ref) (child : node) (n : node) : node :=
  match n with
  | Text s => Text s
  | Elem i t a ks =>
      Elem i t a (map (graft ws child) ks ++ (if mem i ws then [child] else []))
  end.

Fixpoint rewrap (c : ref) (w : node -> node) (n : node) : node :=
  match n with
  | Text s => Text s
  | Elem i t a ks =>
      let n' := Elem i t a (map (rewrap c w) ks) in
      if (i =? c)%nat then w n' else n'
  end.

Definition is_child_in (sel : list ref) (k : node) : bool :=
  match k with
  | Text _ => false
  | Elem j _ _ _ => mem j sel
  end.

Fixpoint parents_of (sel : list ref) (n : node) : list ref :=
  match n with
  | Text _ => []
  | Elem i _ _ ks =>
      (if existsb (is_child_in sel) ks then [i] else [])
      ++ flat_map (parents_of sel) ks
  end.

Fixpoint retag (ids : list ref) (tag : string) (n : node) : node :=
  match n with
  | Text s => Text s
  | Elem i t a ks =>
      Elem i (if mem i ids then tag else t) a (map (retag ids tag) ks)
  end.

Definition on_forest (f : list node -> list node) (d : tree_doc) : tree_doc :=
  {| document := f (document d);
     detached := f (detached d);
     next_id := next_id d |}.

(** [$(s)]: an absent or empty selector selects nothing. *)
Definition tree_query (q : option string) (d : tree_doc) : list ref :=
  match q with
  | None => []
  | Some s =>
      if s =? EmptyString then [] else flat_map (matching s) (document d)
  end.

Definition tree_find (q : string) (ctx : list ref) (d : tree_doc) : list ref :=
  if q =? EmptyString then []
  else flat_map (matching_below q ctx false) (forest d).

(** [attr(name)] reads the first element of the selection; with no name
    it hands back the whole attribute object. *)
Definition tree_attr (sel : list ref) (name : option string) (d : tree_doc)
  : value :=
  match sel with
  | [] => VUndefined
  | i :: _ =>
      match lookup i d with
      | Some (Elem _ _ a _) =>
          let whole := VObj (map (fun kv => (fst kv, VStr (snd kv))) a) in
          match name with
          | None => whole
          | Some nm =>
              if nm =? EmptyString then whole
              else
                match assoc nm a with
                | Some v => VStr v
                | None => VUndefined
                end
          end
      | _ => VUndefined
      end
  end.

Definition text_of (d : tree_doc) (i : ref) : string :=
  match lookup i d with
  | Some n => node_text n
  | None => EmptyString
  end.

Definition tree_text (sel : list ref) (d : tree_doc) : string :=
  String.concat EmptyString (map (text_of d) sel).

Definition tree_remove (ids : list ref) (d : tree_doc) : tree_doc :=
  on_forest (flat_map (prune ids)) d.

Definition tree_make_div (d : tree_doc) : list ref * tree_doc :=
  ([next_id d],
   {| document := document d;
      detached := detached d ++ [Elem (next_id d) "div" [] []];
      next_id := S (next_id d) |}).

Definition tree_append (wrapper : list ref) (element : ref) (d : tree_doc)
  : tree_doc :=
  match lookup element d with
  | None => d
  | Some n => on_forest (map (graft wrapper n)) (tree_remove [element] d)
  end.

Definition tree_wrap (sel wrapper : list ref) (d : tree_doc) : tree_doc :=
  match wrapper with
  | [] => d
  | w :: _ =>
      match lookup w d with
      | Some (Elem _ t a _) =>
          fold_left
            (fun d c =>
               {| document := map (rewrap c (fun n => Elem (next_id d) t a [n]))
                                  (document d);
                  detached := map (rewrap c (fun n => Elem (next_id d) t a [n]))
                                  (detached d);
                  next_id := S (next_id d) |})
            sel d
      | _ => d
      end
  end.

Definition tree_parent (sel : list ref) (d : tree_doc) : list ref :=
  flat_map (parents_of sel) (forest d).

Definition html_of (d : tree_doc) (i : ref) : string :=
  match lookup i d with
  | Some n => outer_html n
  | None => EmptyString
  end.

Definition tree_static_html (v : value) (d : tree_doc) : string :=
  match v with
  | VSel sel => String.concat EmptyString (map (html_of d) sel)
  | _ => EmptyString
  end.

Definition tree_static_text (v : value) (d : tree_doc) : string :=
  match v with
  | VSel sel => tree_text sel d
  | _ => EmptyString
  end.

Definition TreeDom : Dom :=
  {| doc := tree_doc;
     query := tree_query;
     find := tree_find;
     get_attr := tree_attr;
     text := tree_text;
     remove := tree_remove;
     make_div := tree_make_div;
     append := tree_append;
     wrap := tree_wrap;
     parent := tree_parent;
     static_html := tree_static_html;
     static_text := tree_static_text |}.

(** The engine reads nothing but the element's tag and attributes when
    it decides [q]. *)
Definition element_local (q : string) : Prop :=
  forall t a ks ks', matches q t a ks = matches q t a ks'.

End Tree.

(** *** A small selector engine

    Comma-separated alternatives, each [tag], [*], [tag:empty] or
    [:empty]. *)

Fixpoint split_on (c : ascii) (s : string) : list string :=
  match s with
  | EmptyString => [EmptyString]
  | String x r =>
      if Ascii.eqb x c then EmptyString :: split_on c r
      else
        match split_on c r with
        | h :: t => String x h :: t
        | [] => [String x EmptyString]
        end
  end.

Definition simple_matches (alt tag : string) (ks : list node) : bool :=
  match split_on ":"%char (trim alt) with
  | [name] =>
      negb (name =? EmptyString) && ((name =? "*") || (name =? tag))
  | [name; pseudo] =>
      ((name =? EmptyString) || (name =? "*") || (name =? tag))
      && (pseudo =? "empty")
      && match ks with [] => true | _ => false end
  | _ => false
  end.

Definition css_lite : matcher :=
  fun q tag _ ks =>
    existsb (fun alt => simple_matches alt tag ks) (split_on ","%char q).

(** *** A sample page and sample collaborators *)

Definition demoDom : Dom := TreeDom css_lite.

(** Modelled from the spec: [convertNodeTo] of [utils/dom], which is not
    part of this file.  A matched element is converted to the given tag
    name, preserving children and attributes. *)
Definition tree_convertNodeTo (sel : list ref) (tag : string)
  : M tree_doc unit :=
  modify (on_forest (map (retag sel tag))).

(** Leading by-line markers, dropped one after the other. *)
Fixpoint strip_byline (fuel : nat) (s : string) : string :=
  match fuel with
  | O => s
  | S fuel' =>
      if prefix "By" s
      then strip_byline fuel' (trim (substring 2 (String.length s - 2) s))
      else s
  end.

(** Modelled from the spec: the cleaners of [cleaners], which is not
    part of this file: one normalization function per field type, given
    the matched value or region and the options, returning the
    normalized value, with no effect on the page.  Here the author
    cleaner drops by-line markers, the image cleaner keeps web addresses
    only, and the other cleaners return their input. *)
Definition demoCleaners (type : string) (x : value)
    (_ : cleaner_opts demoDom) : M tree_doc value :=
  match x with
  | VStr s =>
      if type =? "author" then
        ret (VStr (strip_byline (String.length s) s))
      else if type =? "lead_image_url" then
        ret (if prefix "http" s then VStr s else VNull)
      else ret x
  | _ => ret x
  end.

(** Modelled from the spec: the generic extractor of [./generic], which
    is not part of this file: one function per field type, given the
    options, returning a value or null.  Here each strategy answers with
    a marked string, and the address strategy needs the [url] option. *)
Definition demoGeneric (type : string) (opts : Opts demoDom)
  : M tree_doc value :=
  if type =? "url_and_domain" then
    match lookup_key "url" (rest demoDom opts) with
    | Some (VStr u) =>
        ret (VObj [("url", VStr u); ("domain", VStr "example.com")])
    | _ => ret VNull
    end
  else ret (VStr ("generic " ++ type)).

(** Modelled from the spec: the generic definition is the universal
    wildcard definition. *)
Definition demoGenericDefinition : Extractor demoDom :=
  {| domain := "*"; rulesFor := fun _ => RAbsent demoDom |}.

(** Modelled from the spec: the [extract] method of a wildcard
    definition, which runs the whole extraction by itself and whose
    result is returned unchanged.  Here it answers with a fixed record. *)
Definition demoExtractMethod (_ : Extractor demoDom) (_ : Opts demoDom)
  : M tree_doc value :=
  ret (VObj [("title", VStr "generic title");
             ("content", VStr "generic content");
             ("author", VNull)]).

Definition demoCollaborators : Collaborators demoDom :=
  {| Cleaners := demoCleaners;
     GenericExtractor := demoGeneric;
     GenericDefinition := demoGenericDefinition;
     extractMethod := demoExtractMethod;
     convertNodeTo := tree_convertNodeTo;
     turndown := fun html => html |}.

Definition demoPage : tree_doc :=
  {| document :=
       [Elem 1 "html" []
          [Elem 2 "head" []
             [Elem 3 "meta" [("name", "author"); ("value", " By Jane Doe ")] []];
           Elem 4 "body" []
             [Elem 5 "h1" [] [Text "  Breaking News  "];
              Elem 6 "img" [("src", " /hero.png ")] [];
              Elem 7 "article" []
                [Elem 8 "h2" [] [Text "Intro"];
                 Elem 9 "p" [] [Text "Hello world"];
                 Elem 10 "aside" [] [Text "Ad"]];
              Elem 11 "p" [] [Text "Footer"];
              Elem 12 "cite" [] [Text " By "]]]];
     detached := [];
     next_id := 13 |}.

(** Rules with nothing but a selector list. *)
Definition only_selectors (sels : list selector) : FieldSpec demoDom :=
  {| selectors := sels;
     clean := None;
     transforms := None;
     defaultCleaner := VUndefined |}.

Definition no_rules : string -> rules demoDom := fun _ => RAbsent demoDom.

(** Rules for one field type, none for the others. *)
Definition rules_at (t : string) (r : rules demoDom) : string -> rules demoDom :=
  fun t' => if t' =? t then r else RAbsent demoDom.

(** The bag a caller passes when it sets no option. *)
Definition bare_opts : Opts demoDom :=
  {| type := EmptyString;
     extractor := None;
     extractionOpts := RAbsent demoDom;
     extractHtml := VUndefined;
     contentType := VUndefined;
     fallback := VUndefined;
     contentOnly := VUndefined;
     extractedTitle := VUndefined;
     title := VUndefined;
     content := VUndefined;
     excerpt := VUndefined;
     rest := [] |}.

(** A custom extractor for the sample site. *)
Definition demoExtractor (rulesFor : string -> rules demoDom)
  : Extractor demoDom :=
  {| domain := "example.com"; rulesFor := rulesFor |}.

(** The bag [extractResult] receives for one field type. *)
Definition opts_for (ex : Extractor demoDom) (t : string) : Opts demoDom :=
  with_extractor demoDom ex (with_type demoDom t bare_opts).

(** Two paragraphs match [p], so this title rule matches nothing. *)
Definition ambiguousTitle : Extractor demoDom :=
  demoExtractor (rules_at "title" (RSpec demoDom (only_selectors [SStr "p"]))).

(** The by-line of the sample page holds no name. *)
Definition bylineAuthor : Extractor demoDom :=
  demoExtractor (rules_at "author" (RSpec demoDom (only_selectors [SStr "cite"]))).

(** The author is read off a [meta] element. *)
Definition metaAuthorRules : FieldSpec demoDom :=
  only_selectors [SArr ["meta"; "value"]].

(** The same rule with the field cleaner switched off. *)
Definition rawMetaAuthorRules : FieldSpec demoDom :=
  {| selectors := [SArr ["meta"; "value"]];
     clean := Some ["meta"];
     transforms := None;
     defaultCleaner := VBool false |}.

(** A fixed author credit, and an empty one. *)
Definition fixedAuthor (credit : string) : Extractor demoDom :=
  demoExtractor (rules_at "author" (RString demoDom credit)).

(** A custom definition that declares the wildcard domain. *)
Definition wildcardExtractor : Extractor demoDom :=
  {| domain := "*"; rulesFor := no_rules |}.

(** Headings are turned into [h3], and [h3] is on the clean list. *)
Definition contentRules : FieldSpec demoDom :=
  {| selectors := [SStr "article"];
     clean := Some ["h3"];
     transforms := Some [("h2", TString demoDom "h3")];
     defaultCleaner := VUndefined |}.

Definition articleExtractor : Extractor demoDom :=
  demoExtractor (rules_at "content" (RSpec demoDom contentRules)).

(** The bags [select] receives for the sample article, in HTML mode and
    in text mode. *)
Definition textContentOpts : Opts demoDom :=
  with_extractionOpts demoDom (RSpec demoDom contentRules)
    (opts_for articleExtractor "content").

Definition htmlContentOpts : Opts demoDom :=
  with_extractHtml demoDom (VBool true) textContentOpts.

(** The bag [select] receives for the author read off the [meta]
    element. *)
Definition metaAuthorOpts : Opts demoDom :=
  with_extractionOpts demoDom (RSpec demoDom metaAuthorRules)
    (opts_for (demoExtractor (rules_at "author" (RSpec demoDom metaAuthorRules)))
       "author").

(** A region whose [div] holds nothing but a [span], and a clean list
    that names spans and empty divs. *)
Definition nestedPage : tree_doc :=
  {| document := [Elem 1 "section" [] [Elem 2 "div" [] [Elem 3 "span" [] []]]];
     detached := [];
     next_id := 4 |}.

Definition cleanOnly (cl : list string) : FieldSpec demoDom :=
  {| selectors := [];
     clean := Some cl;
     transforms := None;
     defaultCleaner := VUndefined |}.

(** The title is the text of the only [h1]. *)
Definition headlineTitle : Extractor demoDom :=
  demoExtractor (rules_at "title" (RSpec demoDom (only_selectors [SStr "h1"]))).

(** Sample content rules whose transform values are neither tag names
    nor functions. *)
Definition contentRulesInert : FieldSpec demoDom :=
  {| selectors := [SStr "article"];
     clean := None;
     transforms := Some [("h2", TOther demoDom); ("p", TOther demoDom)];
     defaultCleaner := VUndefined |}.

(** A caller that passes the address of the page. *)
Definition opts_with_url : Opts demoDom :=
  {| type := EmptyString;
     extractor := None;
     extractionOpts := RAbsent demoDom;
     extractHtml := VUndefined;
     contentType := VUndefined;
     fallback := VUndefined;
     contentOnly := VUndefined;
     extractedTitle := VUndefined;
     title := VUndefined;
     content := VUndefined;
     excerpt := VUndefined;
     rest := [("url", VStr "https://example.com/a")] |}.

(** [select] yields no result for the field without touching the page:
    the field has no rules, or none of its selectors matches. *)
Definition rules_absent_or_unmatched {D : Dom} (ex : Extractor D)
    (opts : Opts D) (d : doc D) : Prop :=
  match rulesFor D ex (type D opts) with
  | RAbsent _ => True
  | RString _ _ => False
  | RSpec _ spec =>
      findMatchingSelector d (selectors D spec)
        (default_to (VBool false) (extractHtml D opts)) = Some None
  end.

(** * Properties *)

(** ** Strings and values *)

Lemma trim_empty : trim EmptyString = EmptyString.
Proof. reflexivity. Qed.

Lemma trim_nonempty (x : string) :
  trim x <> EmptyString -> x <> EmptyString.
Proof. intros H E. subst x. apply H, trim_empty. Qed.

Lemma eqb_empty_false (x : string) :
  x <> EmptyString -> (x =? EmptyString) = false.
Proof. intros H. now apply String.eqb_neq. Qed.

Lemma truthy_string (x : string) :
  truthy (VStr x) = true <-> x <> EmptyString.
Proof.
  simpl. rewrite negb_true_iff. apply String.eqb_neq.
Qed.

Lemma truthy_cases (v : value) :
  In v [VStr EmptyString; VNum 0; VNull; VUndefined] -> truthy v = false.
Proof.
  simpl. intros [E | [E | [E | [E | []]]]]; subst v; reflexivity.
Qed.

(** ** [Array.prototype.find] *)

Section ArrayFind.

Context {A : Type} (p : A -> option bool).

Lemma array_find_first (pre : list A) (m : A) (post : list A) :
  Forall (fun x => p x = Some false) pre ->
  p m = Some true ->
  array_find p (pre ++ m :: post) = Some (Some m).
Proof.
  intros Hpre Hm. induction Hpre as [| x pre Hx _ IH]; simpl.
  - now rewrite Hm.
  - now rewrite Hx.
Qed.

Lemma array_find_none (l : list A) :
  array_find p l = Some None <-> Forall (fun x => p x = Some false) l.
Proof.
  induction l as [| x l IH]; simpl.
  - split; [constructor | reflexivity].
  - destruct (p x) as [[|] |] eqn:Hx.
    + split; [discriminate | intros H; inversion H; congruence].
    + rewrite IH. split; [now constructor | intros H; now inversion H].
    + split; [discriminate | intros H; inversion H; congruence].
Qed.

Lemma array_find_some (l : list A) (m : A) :
  array_find p l = Some (Some m) ->
  exists pre post,
    l = pre ++ m :: post
    /\ Forall (fun x => p x = Some false) pre
    /\ p m = Some true.
Proof.
  induction l as [| x l IH]; simpl; [discriminate |].
  destruct (p x) as [[|] |] eqn:Hx; [| | discriminate].
  - intros E. injection E as ->. exists [], l. now repeat split.
  - intros E. destruct (IH E) as (pre & post & -> & Hpre & Hm).
    exists (x :: pre), post. repeat split; [now constructor | exact Hm].
Qed.

End ArrayFind.

(** ** Selector resolution *)

(** C1.  [findMatchingSelector] walks the candidates in declared order.
    It returns a selector exactly when that selector satisfies the
    predicate of its shape and every candidate before it fails it,
    whatever comes after; it returns no selector exactly when every
    candidate fails its predicate. *)
Theorem findMatchingSelector_first_match (D : Dom) (d : doc D)
    (candidates : list selector) (extractHtml : value)
    (found : option selector) :
  findMatchingSelector d candidates extractHtml = Some found <->
  match found with
  | Some m =>
      exists pre post,
        candidates = pre ++ m :: post
        /\ Forall (fun x => selectorPredicate d extractHtml x = Some false) pre
        /\ selectorPredicate d extractHtml m = Some true
  | None =>
      Forall (fun x => selectorPredicate d extractHtml x = Some false)
        candidates
  end.
Proof.
  unfold findMatchingSelector. destruct found as [m |].
  - split.
    + apply array_find_some.
    + intros (pre & post & -> & Hpre & Hm). now apply array_find_first.
  - apply array_find_none.
Qed.

(** On the sample page the second candidate wins although the third
    would match as well. *)
Lemma findMatchingSelector_first_match_witness :
  findMatchingSelector (D := demoDom) demoPage
    [SStr "p"; SArr ["img"; "src"]; SStr "h1"] VUndefined
  = Some (Some (SArr ["img"; "src"]))
  /\ selectorPredicate (D := demoDom) demoPage VUndefined (SStr "h1")
     = Some true.
Proof.
  split; [| reflexivity].
  apply (proj2 (findMatchingSelector_first_match demoDom demoPage
                  [SStr "p"; SArr ["img"; "src"]; SStr "h1"] VUndefined
                  (Some (SArr ["img"; "src"])))).
  exists [SStr "p"], [SStr "h1"].
  split; [reflexivity |].
  split; [repeat constructor | reflexivity].
Defined.

Lemma all_resolve_spec (D : Dom) (d : doc D) (parts : list string) (acc : bool) :
  fold_left (fun acc s => acc && (0 <? List.length (query D (Some s) d))%nat)
    parts acc = true
  <-> acc = true /\ Forall (fun s => 0 < List.length (query D (Some s) d)) parts.
Proof.
  revert acc. induction parts as [| s parts IH]; intros acc; simpl.
  - split; [intros H; split; [exact H | constructor] | now intros [H _]].
  - rewrite IH, andb_true_iff, Nat.ltb_lt. split.
    + intros [[Ha Hs] Hrest]. split; [exact Ha | now constructor].
    + intros [Ha H]. inversion H; subst. now repeat split.
Qed.

(** C2.  A pair selector [[s, attr]].  Outside HTML mode it matches
    exactly when one element matches [s] and the attribute read off it
    is a string that is not empty once trimmed; in particular it does
    not match when more than one element matches [s].  In HTML mode it
    matches exactly when [s] and [attr], both read as selectors, each
    match at least one element; no attribute is read. *)
Theorem pair_selector_matching (D : Dom) (d : doc D) (s attr : string)
    (extractHtml : value) :
  (truthy extractHtml = false ->
     (selectorPredicate d extractHtml (SArr [s; attr]) = Some true
      <-> List.length (query D (Some s) d) = 1
          /\ exists x,
               get_attr D (query D (Some s) d) (Some attr) d = VStr x
               /\ trim x <> EmptyString)
     /\ (1 < List.length (query D (Some s) d) ->
         selectorPredicate d extractHtml (SArr [s; attr]) = Some false))
  /\ (truthy extractHtml = true ->
      (selectorPredicate d extractHtml (SArr [s; attr]) = Some true
       <-> 0 < List.length (query D (Some s) d)
           /\ 0 < List.length (query D (Some attr) d))).
Proof.
  split; intros Hmode; unfold selectorPredicate; rewrite Hmode.
  - cbn [nth_error]. split.
    + destruct (List.length (query D (Some s) d) =? 1)%nat eqn:Hlen.
      * apply Nat.eqb_eq in Hlen. split.
        -- destruct (truthy (get_attr D (query D (Some s) d) (Some attr) d))
             eqn:Ht; [| discriminate].
           destruct (get_attr D (query D (Some s) d) (Some attr) d)
             as [ | | | | | x | |]; try discriminate.
           intros E. injection E as E. apply negb_true_iff in E.
           split; [exact Hlen |]. exists x. split; [reflexivity |].
           now apply String.eqb_neq.
        -- intros (_ & x & -> & Hx).
           assert (Ht : truthy (VStr x) = true)
             by (apply truthy_string; now apply trim_nonempty).
           rewrite Ht. f_equal. apply negb_true_iff.
           now apply String.eqb_neq.
      * apply Nat.eqb_neq in Hlen. split; [discriminate |].
        intros (Hone & _). contradiction.
    + intros Hmany.
      destruct (List.length (query D (Some s) d) =? 1)%nat eqn:Hlen;
        [| reflexivity].
      apply Nat.eqb_eq in Hlen. lia.
  - split.
    + intros E. assert (E' : fold_left
        (fun acc s0 => acc && (0 <? List.length (query D (Some s0) d))%nat)
        [s; attr] true = true) by congruence.
      apply all_resolve_spec in E'.
      destruct E' as [_ H]. inversion H as [| ? ? Hs H']; subst.
      inversion H' as [| ? ? Ha _]; subst. now split.
    + intros [Hs Ha]. f_equal. apply all_resolve_spec.
      split; [reflexivity | now repeat constructor].
Qed.

(** On the sample page: the only [img] carries a non-blank [src]; in
    HTML mode the pair [[article, h1]] resolves because both selectors
    find an element. *)
Lemma pair_selector_matching_witness :
  selectorPredicate (D := demoDom) demoPage (VBool false) (SArr ["img"; "src"])
  = Some true
  /\ selectorPredicate (D := demoDom) demoPage (VBool false) (SArr ["p"; "src"])
     = Some false
  /\ selectorPredicate (D := demoDom) demoPage (VBool true) (SArr ["article"; "h1"])
     = Some true.
Proof.
  split; [| split].
  - apply (proj1 (pair_selector_matching demoDom demoPage "img" "src"
                    (VBool false)) eq_refl).
    split; [reflexivity |].
    exists " /hero.png ". split; [reflexivity | discriminate].
  - apply (proj1 (pair_selector_matching demoDom demoPage "p" "src"
                    (VBool false)) eq_refl).
    vm_compute. lia.
  - apply (proj2 (pair_selector_matching demoDom demoPage "article" "h1"
                    (VBool true)) eq_refl).
    vm_compute. lia.
Defined.

(** ** Field resolution and fallback *)

Ltac run_monad :=
  unfold bind, ret, gets, modify, state, try_gets, throw; cbn beta iota.

Lemma select_no_result (D : Dom) (C : Collaborators D) (ex : Extractor D)
    (opts : Opts D) (d : doc D) :
  rules_absent_or_unmatched ex opts d ->
  select C (with_extractionOpts D (rulesFor D ex (type D opts)) opts) d
  = Some (VNull, d).
Proof.
  unfold rules_absent_or_unmatched, select. cbn [extractionOpts with_extractionOpts
    extractHtml].
  destruct (rulesFor D ex (type D opts)) as [| s | spec]; [reflexivity | easy |].
  intros H. run_monad. now rewrite H.
Qed.

(** What [extractResult] does with the resolver's answer. *)
Lemma extractResult_after_select (D : Dom) (C : Collaborators D)
    (ex : Extractor D) (opts : Opts D) (d d' : doc D) (v : value) :
  extractor D opts = Some ex ->
  select C (with_extractionOpts D (rulesFor D ex (type D opts)) opts) d
  = Some (v, d') ->
  extractResult C opts d
  = if truthy v then Some (v, d')
    else if truthy (default_to (VBool true) (fallback D opts))
         then GenericExtractor D C (type D opts) opts d'
         else Some (VNull, d').
Proof.
  intros Hex Hsel. unfold extractResult. rewrite Hex.
  unfold bind. rewrite Hsel.
  destruct (truthy v); [reflexivity |].
  now destruct (truthy (default_to (VBool true) (fallback D opts))).
Qed.

(** C3.  When the field has no rules, or no selector of its rules
    matches, the resolver yields null and leaves the page as it was;
    [extractResult] then returns what the generic extractor returns for
    that field type on the same options and the same page, unless the
    caller disabled the fallback, in which case it returns null. *)
Theorem extractResult_fallback (D : Dom) (C : Collaborators D)
    (ex : Extractor D) (opts : Opts D) (d : doc D) :
  extractor D opts = Some ex ->
  rules_absent_or_unmatched ex opts d ->
  select C (with_extractionOpts D (rulesFor D ex (type D opts)) opts) d
  = Some (VNull, d)
  /\ extractResult C opts d
     = if truthy (default_to (VBool true) (fallback D opts))
       then GenericExtractor D C (type D opts) opts d
       else Some (VNull, d).
Proof.
  intros Hex Hnone.
  pose proof (select_no_result D C ex opts d Hnone) as Hsel.
  split; [exact Hsel |].
  now rewrite (extractResult_after_select D C ex opts d d VNull Hex Hsel).
Qed.

(** The ambiguous title rule of the sample site falls back to the
    generic title, or to null when the caller disabled the fallback. *)
Lemma extractResult_fallback_witness :
  extractResult demoCollaborators (opts_for ambiguousTitle "title") demoPage
  = Some (VStr "generic title", demoPage)
  /\ extractResult demoCollaborators
       (with_fallback demoDom (VBool false) (opts_for ambiguousTitle "title"))
       demoPage
     = Some (VNull, demoPage).
Proof.
  split.
  - exact (proj2 (extractResult_fallback demoDom demoCollaborators
                    ambiguousTitle (opts_for ambiguousTitle "title") demoPage
                    eq_refl eq_refl)).
  - exact (proj2 (extractResult_fallback demoDom demoCollaborators
                    ambiguousTitle
                    (with_fallback demoDom (VBool false)
                       (opts_for ambiguousTitle "title"))
                    demoPage eq_refl eq_refl)).
Defined.

(** C10.  For any field type, when the resolver produces the empty
    string, zero, null or undefined and the fallback is enabled,
    [extractResult] returns what the generic extractor returns for that
    field (run on the page as the resolver left it); the resolver's
    value is dropped. *)
Theorem extractResult_falsy_replaced (D : Dom) (C : Collaborators D)
    (ex : Extractor D) (opts : Opts D) (d d' : doc D) (v : value) :
  extractor D opts = Some ex ->
  select C (with_extractionOpts D (rulesFor D ex (type D opts)) opts) d
  = Some (v, d') ->
  In v [VStr EmptyString; VNum 0; VNull; VUndefined] ->
  truthy (default_to (VBool true) (fallback D opts)) = true ->
  extractResult C opts d = GenericExtractor D C (type D opts) opts d'.
Proof.
  intros Hex Hsel Hv Hfb.
  rewrite (extractResult_after_select D C ex opts d d' v Hex Hsel).
  now rewrite (truthy_cases v Hv), Hfb.
Qed.

(** The by-line without a name: the author cleaner returns the empty
    string, and the final author is the generic one. *)
Lemma extractResult_falsy_replaced_witness :
  select demoCollaborators
    (with_extractionOpts demoDom (rulesFor demoDom bylineAuthor "author")
       (opts_for bylineAuthor "author")) demoPage
  = Some (VStr EmptyString, demoPage)
  /\ extractResult demoCollaborators (opts_for bylineAuthor "author") demoPage
     = Some (VStr "generic author", demoPage).
Proof.
  split; [reflexivity |].
  apply (extractResult_falsy_replaced demoDom demoCollaborators bylineAuthor
           (opts_for bylineAuthor "author") demoPage demoPage
           (VStr EmptyString) eq_refl eq_refl).
  - simpl. now left.
  - reflexivity.
Defined.

(** C6 as stated fails for the empty literal: [select] answers null and
    [extractResult] takes the generic author. *)
Lemma literal_rule_counterexample :
  select demoCollaborators
    (with_extractionOpts demoDom (RString demoDom EmptyString)
       (opts_for (fixedAuthor EmptyString) "author")) demoPage
  = Some (VNull, demoPage)
  /\ select demoCollaborators
       (with_extractionOpts demoDom (RString demoDom EmptyString)
          (opts_for (fixedAuthor EmptyString) "author")) demoPage
     <> Some (VStr EmptyString, demoPage)
  /\ extractResult demoCollaborators
       (opts_for (fixedAuthor EmptyString) "author") demoPage
     = Some (VStr "generic author", demoPage).
Proof.
  split; [reflexivity |]. split; [discriminate | reflexivity].
Qed.

(** C6, amended.  A field whose rules are a non-empty literal string:
    [select] returns that string and leaves the page untouched, and so
    does [extractResult], whatever the cleaners and the generic extractor
    are: neither is called. *)
Theorem literal_rule_returned (D : Dom) (C : Collaborators D)
    (opts : Opts D) (s : string) (d : doc D) :
  s <> EmptyString ->
  select C (with_extractionOpts D (RString D s) opts) d = Some (VStr s, d)
  /\ forall ex,
       extractor D opts = Some ex ->
       rulesFor D ex (type D opts) = RString D s ->
       extractResult C opts d = Some (VStr s, d).
Proof.
  intros Hs.
  assert (Hsel : select C (with_extractionOpts D (RString D s) opts) d
                 = Some (VStr s, d)).
  { unfold select. cbn [extractionOpts with_extractionOpts].
    now rewrite (eqb_empty_false s Hs). }
  split; [exact Hsel |].
  intros ex Hex Hrules. rewrite <- Hrules in Hsel.
  rewrite (extractResult_after_select D C ex opts d d (VStr s) Hex Hsel).
  now rewrite (proj2 (truthy_string s) Hs).
Qed.

Lemma literal_rule_returned_witness :
  extractResult demoCollaborators
    (opts_for (fixedAuthor "Wikipedia Contributors") "author") demoPage
  = Some (VStr "Wikipedia Contributors", demoPage).
Proof.
  assert (Hs : "Wikipedia Contributors" <> EmptyString) by discriminate.
  exact (proj2 (literal_rule_returned demoDom demoCollaborators
                  (opts_for (fixedAuthor "Wikipedia Contributors") "author")
                  "Wikipedia Contributors" demoPage Hs)
           (fixedAuthor "Wikipedia Contributors") eq_refl eq_refl).
Defined.

(** ** The orchestrator *)

(** C7 as stated fails when the definition declares the wildcard domain:
    the call is handed to the definition's own [extract], and what that
    returns is returned, [contentOnly] or not. *)
Lemma contentOnly_counterexample :
  extract demoCollaborators (Some wildcardExtractor)
    (with_contentOnly demoDom (VBool true) (VStr "Known title") bare_opts)
    demoPage
  = Some (VObj [("title", VStr "generic title");
                ("content", VStr "generic content");
                ("author", VNull)], demoPage)
  /\ forall content d,
       extract demoCollaborators (Some wildcardExtractor)
         (with_contentOnly demoDom (VBool true) (VStr "Known title") bare_opts)
         demoPage
       <> Some (VObj [("content", content)], d).
Proof. split; [reflexivity | discriminate]. Qed.

(** C7, amended.  With a definition whose domain is not the wildcard and
    [contentOnly] set, [extract] makes one call of [extractResult], for
    the type [content], in HTML mode, with the caller's [extractedTitle]
    as title and the caller's content type ([html] when none is given);
    it returns an object whose only key is [content], holding that
    call's result, and it throws only if that call throws. *)
Theorem extract_contentOnly (D : Dom) (C : Collaborators D)
    (ex : Extractor D) (opts : Opts D) (d : doc D) :
  domain D ex <> "*" ->
  truthy (contentOnly D opts) = true ->
  extract C (Some ex) opts d
  = match
      extractResult C
        (with_contentType D (default_to (VStr "html") (contentType D opts))
           (with_title D (extractedTitle D opts)
              (with_extractHtml D (VBool true)
                 (with_type D "content" (with_extractor D ex opts))))) d
    with
    | Some (content, d') => Some (VObj [("content", content)], d')
    | None => None
    end.
Proof.
  intros Hdom Honly. unfold extract.
  apply String.eqb_neq in Hdom. rewrite Hdom.
  cbn [contentOnly with_extractor]. rewrite Honly.
  reflexivity.
Qed.

(** Content only, as text, for the sample article. *)
Lemma extract_contentOnly_witness :
  option_map fst
    (extract demoCollaborators (Some articleExtractor)
       (with_contentType demoDom (VStr "text")
          (with_contentOnly demoDom (VBool true) (VStr "Known title") bare_opts))
       demoPage)
  = Some (VObj [("content", VStr "Hello worldAd")]).
Proof.
  assert (Hdom : domain demoDom articleExtractor <> "*") by discriminate.
  rewrite (extract_contentOnly demoDom demoCollaborators articleExtractor
             (with_contentType demoDom (VStr "text")
                (with_contentOnly demoDom (VBool true) (VStr "Known title")
                   bare_opts))
             demoPage Hdom eq_refl).
  reflexivity.
Defined.

(** C8.  A full run of [extract] with a custom definition: once the ten
    fields before it are resolved, a [url_and_domain] resolution (custom
    or fallback) that yields a falsy value makes [url] and [domain] both
    null, and [extract] returns the assembled record. *)
Theorem extract_url_and_domain_default (D : Dom) (C : Collaborators D)
    (ex : Extractor D) (opts : Opts D)
    (d0 d1 d2 d3 d4 d5 d6 d7 d8 d9 d10 d11 : doc D)
    (title date_published author next_page_url content lead_image_url
       excerpt dek word_count direction found : value) :
  let o := with_extractor D ex opts in
  domain D ex <> "*" ->
  truthy (contentOnly D opts) = false ->
  extractResult C (with_type D "title" o) d0 = Some (title, d1) ->
  extractResult C (with_type D "date_published" o) d1
  = Some (date_published, d2) ->
  extractResult C (with_type D "author" o) d2 = Some (author, d3) ->
  extractResult C (with_type D "next_page_url" o) d3
  = Some (next_page_url, d4) ->
  extractResult C
    (with_title D title (with_extractHtml D (VBool true)
                           (with_type D "content" o))) d4
  = Some (content, d5) ->
  extractResult C (with_content D content (with_type D "lead_image_url" o)) d5
  = Some (lead_image_url, d6) ->
  extractResult C (with_content D content (with_type D "excerpt" o)) d6
  = Some (excerpt, d7) ->
  extractResult C
    (with_excerpt D excerpt (with_content D content (with_type D "dek" o))) d7
  = Some (dek, d8) ->
  extractResult C (with_content D content (with_type D "word_count" o)) d8
  = Some (word_count, d9) ->
  extractResult C (with_title D title (with_type D "direction" o)) d9
  = Some (direction, d10) ->
  extractResult C (with_type D "url_and_domain" o) d10 = Some (found, d11) ->
  truthy found = false ->
  extract C (Some ex) opts d0
  = Some (VObj [("title", title);
                ("content", content);
                ("author", author);
                ("date_published", date_published);
                ("lead_image_url", lead_image_url);
                ("dek", dek);
                ("next_page_url", next_page_url);
                ("url", VNull);
                ("domain", VNull);
                ("excerpt", excerpt);
                ("word_count", word_count);
                ("direction", direction)], d11).
Proof.
  intros o Hdom Honly H1 H2 H3 H4 H5 H6 H7 H8 H9 H10 H11 Hfalsy.
  unfold extract. apply String.eqb_neq in Hdom. rewrite Hdom.
  cbn [contentOnly with_extractor]. rewrite Honly.
  fold o. unfold bind.
  rewrite H1, H2, H3, H4, H5, H6, H7, H8, H9, H10, H11, Hfalsy.
  reflexivity.
Qed.

(** The sample article: the caller gave no [url], so the generic address
    strategy has nothing to answer and both keys come out null. *)
Lemma extract_url_and_domain_default_witness :
  exists d,
    extract demoCollaborators (Some articleExtractor) bare_opts demoPage
    = Some (VObj [("title", VStr "generic title");
                  ("content",
                   VStr "<div><article><p>Hello world</p><aside>Ad</aside></article></div>");
                  ("author", VStr "generic author");
                  ("date_published", VStr "generic date_published");
                  ("lead_image_url", VStr "generic lead_image_url");
                  ("dek", VStr "generic dek");
                  ("next_page_url", VStr "generic next_page_url");
                  ("url", VNull);
                  ("domain", VNull);
                  ("excerpt", VStr "generic excerpt");
                  ("word_count", VStr "generic word_count");
                  ("direction", VStr "generic direction")], d).
Proof.
  eexists.
  eapply (extract_url_and_domain_default demoDom demoCollaborators
            articleExtractor bare_opts demoPage).
  - discriminate.
  - reflexivity.
  - vm_compute; reflexivity.
  - vm_compute; reflexivity.
  - vm_compute; reflexivity.
  - vm_compute; reflexivity.
  - vm_compute; reflexivity.
  - vm_compute; reflexivity.
  - vm_compute; reflexivity.
  - vm_compute; reflexivity.
  - vm_compute; reflexivity.
  - vm_compute; reflexivity.
  - vm_compute; reflexivity.
  - reflexivity.
Defined.

(** ** Mutation order and attribute mode *)

(** C4.  In HTML mode [select] builds the region, transforms it, then
    cleans it, then hands it to the field cleaner and renders it.  In
    text mode it cleans the matched node first, transforms it next, and
    takes the trimmed text of what is left. *)
Theorem select_mutation_order (D : Dom) (C : Collaborators D)
    (opts : Opts D) (spec : FieldSpec D) (d : doc D) :
  let extractHtml := default_to (VBool false) (extractHtml D opts) in
  let contentType := default_to (VStr "html") (contentType D opts) in
  let defaultCleaner := default_to (VBool true) (defaultCleaner D spec) in
  extractionOpts D opts = RSpec D spec ->
  (forall m region d1 transformed d2 cleaned d3 v d4 out d5,
      findMatchingSelector d (selectors D spec) extractHtml = Some (Some m) ->
      selector_falsy m = false ->
      truthy extractHtml = true ->
      htmlRegion m d = Some (region, d1) ->
      transformElements C region spec d1 = Some (transformed, d2) ->
      cleanBySelectors transformed spec d2 = Some (cleaned, d3) ->
      Cleaners D C (type D opts) (VSel cleaned)
        (SpreadDefaultCleaner D opts defaultCleaner) d3 = Some (v, d4) ->
      render C contentType v d4 = Some (Some out, d5) ->
      select C opts d = Some (out, d5))
  /\ (forall s cleaned d1 transformed d2,
         findMatchingSelector d (selectors D spec) extractHtml
         = Some (Some (SStr s)) ->
         s <> EmptyString ->
         truthy extractHtml = false ->
         cleanBySelectors (query D (Some s) d) spec d = Some (cleaned, d1) ->
         transformElements C cleaned spec d1 = Some (transformed, d2) ->
         select C opts d
         = if truthy defaultCleaner
           then Cleaners D C (type D opts)
                  (VStr (trim (text D transformed d2)))
                  (SpreadRules D opts spec) d2
           else Some (VStr (trim (text D transformed d2)), d2)).
Proof.
  intros eh ct dc Hrules. split.
  - intros m region d1 transformed d2 cleaned d3 v d4 out d5
      Hfind Hm Hmode Hregion Htransform Hclean Hcleaner Hrender.
    unfold select. rewrite Hrules. fold eh ct dc.
    unfold bind at 1. unfold try_gets. rewrite Hfind, Hm, Hmode.
    unfold bind at 1. unfold htmlBranch.
    unfold bind at 1. rewrite Hregion.
    unfold bind at 1. rewrite Htransform.
    unfold bind at 1. rewrite Hclean.
    unfold bind at 1. rewrite Hcleaner.
    rewrite Hrender. reflexivity.
  - intros s cleaned d1 transformed d2 Hfind Hs Hmode Hclean Htransform.
    unfold select. rewrite Hrules. fold eh ct dc.
    unfold bind at 1. unfold try_gets. rewrite Hfind.
    cbn [selector_falsy]. rewrite (eqb_empty_false s Hs), Hmode.
    unfold bind at 1. unfold ret at 1. unfold textBranch.
    unfold bind at 1. unfold bind at 1. unfold gets at 1.
    unfold bind at 1. rewrite Hclean.
    unfold bind at 1. rewrite Htransform.
    unfold bind at 1. unfold gets at 1. unfold ret at 1.
    destruct (truthy dc); reflexivity.
Qed.

(** The sample article, whose rules turn [h2] into [h3] and clean [h3].
    In HTML mode the heading is converted and then removed; in text mode
    the clean pass runs first and finds no [h3], so the heading stays. *)
Lemma select_mutation_order_witness :
  option_map fst (select demoCollaborators htmlContentOpts demoPage)
  = Some (VStr "<div><article><p>Hello world</p><aside>Ad</aside></article></div>")
  /\ option_map fst (select demoCollaborators textContentOpts demoPage)
     = Some (VStr "IntroHello worldAd").
Proof.
  split.
  - destruct (select_mutation_order demoDom demoCollaborators htmlContentOpts
                contentRules demoPage eq_refl) as [Hhtml _].
    erewrite Hhtml; cycle 1.
    + vm_compute; reflexivity.
    + reflexivity.
    + reflexivity.
    + vm_compute; reflexivity.
    + vm_compute; reflexivity.
    + vm_compute; reflexivity.
    + vm_compute; reflexivity.
    + vm_compute; reflexivity.
    + reflexivity.
  - destruct (select_mutation_order demoDom demoCollaborators textContentOpts
                contentRules demoPage eq_refl) as [_ Htext].
    erewrite (Htext "article"); cycle 1.
    + reflexivity.
    + discriminate.
    + reflexivity.
    + vm_compute; reflexivity.
    + vm_compute; reflexivity.
    + reflexivity.
Defined.

Lemma pair_accepted (D : Dom) (d : doc D) (extractHtml : value)
    (s attr : string) (more : list string) :
  truthy extractHtml = false ->
  selectorPredicate d extractHtml (SArr (s :: attr :: more)) = Some true ->
  List.length (query D (Some s) d) = 1
  /\ exists x,
       get_attr D (query D (Some s) d) (Some attr) d = VStr x
       /\ trim x <> EmptyString.
Proof.
  intros Hmode. unfold selectorPredicate. rewrite Hmode. cbn [nth_error].
  destruct (List.length (query D (Some s) d) =? 1)%nat eqn:Hlen;
    [| discriminate].
  apply Nat.eqb_eq in Hlen.
  destruct (truthy (get_attr D (query D (Some s) d) (Some attr) d));
    [| discriminate].
  destruct (get_attr D (query D (Some s) d) (Some attr) d)
    as [ | | | | | x | |]; try discriminate.
  intros E. injection E as E. apply negb_true_iff in E.
  split; [exact Hlen |]. exists x. split; [reflexivity |].
  now apply String.eqb_neq.
Qed.

(** C5 as stated fails under the default [defaultCleaner]: the author
    read off the [meta] element is passed through the author cleaner,
    which drops the by-line marker, so [select] does not return the
    trimmed attribute. *)
Lemma attribute_mode_counterexample :
  findMatchingSelector (D := demoDom) demoPage
    (selectors demoDom metaAuthorRules) (VBool false)
  = Some (Some (SArr ["meta"; "value"]))
  /\ get_attr demoDom (query demoDom (Some "meta") demoPage) (Some "value")
       demoPage
     = VStr " By Jane Doe "
  /\ trim " By Jane Doe " = "By Jane Doe"
  /\ select demoCollaborators metaAuthorOpts demoPage
     = Some (VStr "Jane Doe", demoPage)
  /\ select demoCollaborators metaAuthorOpts demoPage
     <> Some (VStr (trim " By Jane Doe "), demoPage).
Proof.
  repeat split; try reflexivity. vm_compute. discriminate.
Qed.

(** C5, amended.  In attribute mode (an array selector matched outside
    HTML mode) exactly one element matches the selector and its
    attribute is a string that is not blank; [select] trims it, runs no
    clean-selector removal and no transform, and leaves the page as it
    was.  It returns the trimmed attribute itself only when the rules
    set [defaultCleaner] to a falsy value; otherwise (the default) it
    returns what the field cleaner makes of the trimmed attribute. *)
Theorem attribute_mode_result (D : Dom) (C : Collaborators D)
    (opts : Opts D) (spec : FieldSpec D) (d : doc D)
    (s attr : string) (more : list string) :
  let extractHtml := default_to (VBool false) (extractHtml D opts) in
  let defaultCleaner := default_to (VBool true) (defaultCleaner D spec) in
  extractionOpts D opts = RSpec D spec ->
  truthy extractHtml = false ->
  findMatchingSelector d (selectors D spec) extractHtml
  = Some (Some (SArr (s :: attr :: more))) ->
  exists x,
    List.length (query D (Some s) d) = 1
    /\ get_attr D (query D (Some s) d) (Some attr) d = VStr x
    /\ trim x <> EmptyString
    /\ select C opts d
       = if truthy defaultCleaner
         then Cleaners D C (type D opts) (VStr (trim x))
                (SpreadRules D opts spec) d
         else Some (VStr (trim x), d).
Proof.
  intros eh dc Hrules Hmode Hfind.
  destruct (array_find_some _ _ _ Hfind) as (pre & post & _ & _ & Hacc).
  destruct (pair_accepted D d eh s attr more Hmode Hacc)
    as (Hlen & x & Hattr & Hx).
  exists x. repeat split; try assumption.
  unfold select. rewrite Hrules. fold eh dc.
  unfold bind at 1. unfold try_gets. rewrite Hfind.
  cbn [selector_falsy]. rewrite Hmode.
  unfold bind at 1. unfold ret at 1. unfold textBranch.
  unfold bind at 1. unfold bind at 1. unfold gets at 1.
  cbn [nth_error]. rewrite Hattr. unfold ret at 1.
  destruct (truthy dc); reflexivity.
Qed.

(** With [defaultCleaner: false] the author of the sample page keeps
    its by-line marker. *)
Lemma attribute_mode_result_witness :
  select demoCollaborators
    (with_extractionOpts demoDom (RSpec demoDom rawMetaAuthorRules)
       metaAuthorOpts) demoPage
  = Some (VStr "By Jane Doe", demoPage).
Proof.
  destruct (attribute_mode_result demoDom demoCollaborators
              (with_extractionOpts demoDom (RSpec demoDom rawMetaAuthorRules)
                 metaAuthorOpts)
              rawMetaAuthorRules demoPage "meta" "value" []
              eq_refl eq_refl eq_refl) as (x & _ & Hattr & _ & Hsel).
  rewrite Hsel.
  assert (Hx : x = " By Jane Doe ") by (vm_compute in Hattr; congruence).
  rewrite Hx. reflexivity.
Defined.

(** ** Clean removal on the tree document *)

Lemma node_induction (P : node -> Prop) :
  (forall s, P (Text s)) ->
  (forall i t a ks, (forall k, In k ks -> P k) -> P (Elem i t a ks)) ->
  forall n, P n.
Proof.
  intros HText HElem. fix IH 1. intros [s | i t a ks].
  - apply HText.
  - apply HElem. induction ks as [| k ks IHks]; intros k' Hin.
    + destruct Hin.
    + destruct Hin as [<- | Hin]; [apply IH | now apply IHks].
Qed.

Lemma mem_In (i : ref) (ids : list ref) : mem i ids = true <-> In i ids.
Proof.
  unfold mem. rewrite existsb_exists. split.
  - intros (j & Hin & E). apply Nat.eqb_eq in E. now subst.
  - intros Hin. exists i. split; [exact Hin | apply Nat.eqb_refl].
Qed.

Lemma flat_map_nil_each {A B : Type} (f : A -> list B) (l : list A) :
  (forall x, In x l -> f x = []) -> flat_map f l = [].
Proof.
  induction l as [| x l IH]; intros H; simpl; [reflexivity |].
  rewrite (H x (or_introl eq_refl)). apply IH.
  intros y Hy. apply H. now right.
Qed.

Lemma flat_map_flat_map {A B X : Type} (f : A -> list B) (g : B -> list X)
    (l : list A) :
  flat_map g (flat_map f l) = flat_map (fun x => flat_map g (f x)) l.
Proof.
  induction l as [| x l IH]; simpl; [reflexivity |].
  now rewrite flat_map_app, IH.
Qed.

Lemma prune_nothing (n : node) : prune [] n = [n].
Proof.
  induction n as [s | i t a ks IH] using node_induction; simpl;
    [reflexivity |].
  f_equal. f_equal.
  induction ks as [| k ks IHks]; simpl; [reflexivity |].
  rewrite (IH k (or_introl eq_refl)). simpl. f_equal.
  apply IHks. intros k' Hk'. apply IH. now right.
Qed.

Lemma prune_nothing_forest (l : list node) : flat_map (prune []) l = l.
Proof.
  induction l as [| n l IH]; simpl; [reflexivity |].
  now rewrite prune_nothing, IH.
Qed.

Lemma tree_remove_nothing (d : tree_doc) : tree_remove [] d = d.
Proof.
  destruct d as [doc0 det n]. unfold tree_remove, on_forest. simpl.
  now rewrite !prune_nothing_forest.
Qed.

Section CleanOnce.

Variable matches : matcher.
Variable q : string.
Variable ctx : list ref.
Variable removed : list ref.

Hypothesis q_local : element_local matches q.

(** Once every match below the context is removed, none is left. *)
Lemma pruned_node_clean (n : node) :
  forall inside,
    (forall i, In i (matching_below matches q ctx inside n) -> In i removed) ->
    flat_map (matching_below matches q ctx inside) (prune removed n) = [].
Proof.
  induction n as [s | i t a ks IH] using node_induction; intros inside Hall;
    simpl; [reflexivity |].
  destruct (mem i removed) eqn:Hmem; simpl; [reflexivity |].
  rewrite app_nil_r.
  rewrite (q_local t a (flat_map (prune removed) ks) ks).
  destruct (inside && matches q t a ks) eqn:Hhit.
  - exfalso. assert (Hin : In i removed).
    { apply Hall. simpl. rewrite Hhit. now left. }
    apply mem_In in Hin. congruence.
  - simpl. rewrite flat_map_flat_map. apply flat_map_nil_each.
    intros k Hk. apply (IH k Hk).
    intros j Hj. apply Hall. simpl. apply in_or_app. right.
    apply in_flat_map. now exists k.
Qed.

Lemma pruned_forest_clean (l : list node) :
  (forall i, In i (flat_map (matching_below matches q ctx false) l) ->
             In i removed) ->
  flat_map (matching_below matches q ctx false) (flat_map (prune removed) l)
  = [].
Proof.
  intros Hall. rewrite flat_map_flat_map. apply flat_map_nil_each.
  intros n Hn. apply pruned_node_clean.
  intros i Hi. apply Hall. apply in_flat_map. now exists n.
Qed.

End CleanOnce.

Lemma tree_find_after_remove (matches : matcher) (q : string)
    (ctx : list ref) (d : tree_doc) :
  element_local matches q ->
  tree_find matches q ctx (tree_remove (tree_find matches q ctx d) d) = [].
Proof.
  intros Hlocal. unfold tree_find.
  destruct (q =? EmptyString); [reflexivity |].
  unfold tree_remove, on_forest, forest. simpl.
  rewrite <- flat_map_app.
  apply pruned_forest_clean; [exact Hlocal | trivial].
Qed.

(** C9 as stated fails for a selector that looks at an element's
    children: the first pass removes the [span], which leaves the [div]
    empty, and the second pass removes the [div]. *)
Lemma cleanBySelectors_counterexample :
  cleanBySelectors (D := demoDom) [1] (cleanOnly ["span"; "div:empty"])
    nestedPage
  = Some ([1],
          {| document := [Elem 1 "section" [] [Elem 2 "div" [] []]];
             detached := [];
             next_id := 4 |})
  /\ cleanBySelectors (D := demoDom) [1] (cleanOnly ["span"; "div:empty"])
       {| document := [Elem 1 "section" [] [Elem 2 "div" [] []]];
          detached := [];
          next_id := 4 |}
     = Some ([1],
             {| document := [Elem 1 "section" [] []];
                detached := [];
                next_id := 4 |})
  /\ {| document := [Elem 1 "section" [] [Elem 2 "div" [] []]];
        detached := [];
        next_id := 4 |}
     <> {| document := [Elem 1 "section" [] []];
           detached := [];
           next_id := 4 |}.
Proof. repeat split; try reflexivity. discriminate. Qed.

(** C9, amended.  On the tree document, when the selector engine
    decides the joined clean list from an element's own tag and
    attributes (not from its children), a second [cleanBySelectors]
    with the same list changes nothing. *)
Theorem cleanBySelectors_idempotent (matches : matcher)
    (region : list ref) (spec : FieldSpec (TreeDom matches)) (d : tree_doc) :
  (forall cl, clean (TreeDom matches) spec = Some cl ->
              element_local matches (join "," cl)) ->
  exists d1,
    cleanBySelectors (D := TreeDom matches) region spec d = Some (region, d1)
    /\ cleanBySelectors (D := TreeDom matches) region spec d1
       = Some (region, d1).
Proof.
  intros Hlocal. unfold cleanBySelectors.
  destruct (clean (TreeDom matches) spec) as [cl |] eqn:Hclean.
  - eexists. split; [reflexivity |].
    unfold bind, modify, ret. cbn [remove find TreeDom].
    rewrite (tree_find_after_remove matches (join "," cl) region d
               (Hlocal cl eq_refl)).
    now rewrite tree_remove_nothing.
  - exists d. split; reflexivity.
Qed.

(** Cleaning the sample article of headings and asides, twice. *)
Lemma cleanBySelectors_idempotent_witness :
  exists d1,
    cleanBySelectors (D := demoDom) [7] (cleanOnly ["aside"; "h2"]) demoPage
    = Some ([7], d1)
    /\ cleanBySelectors (D := demoDom) [7] (cleanOnly ["aside"; "h2"]) d1
       = Some ([7], d1)
    /\ tree_text [7] d1 = "Hello world".
Proof.
  destruct (cleanBySelectors_idempotent css_lite [7]
              (cleanOnly ["aside"; "h2"]) demoPage) as (d1 & H1 & H2).
  - intros cl E. injection E as <-. intros t a ks ks'. reflexivity.
  - exists d1. split; [exact H1 |]. split; [exact H2 |].
    vm_compute in H1. injection H1 as <-. reflexivity.
Defined.

(** * Further properties of the extractor *)

(** ** The predicates of the other selector shapes *)

(** X1.  A plain string selector is judged the same way in every mode,
    HTML mode included: it is accepted exactly when one element matches
    and the trimmed text of that element is not empty.  The predicate
    never throws on it. *)
Theorem string_selector_matching (D : Dom) (d : doc D) (s : string)
    (extractHtml : value) :
  exists b,
    selectorPredicate d extractHtml (SStr s) = Some b
    /\ (b = true <->
        List.length (query D (Some s) d) = 1
        /\ trim (text D (query D (Some s) d) d) <> EmptyString).
Proof.
  eexists. split; [reflexivity |].
  rewrite andb_true_iff, Nat.eqb_eq, negb_true_iff, String.eqb_neq.
  reflexivity.
Qed.

(** X2.  In HTML mode an array selector of any length is accepted
    exactly when each of its entries matches at least one element (more
    than one is fine, and no text or attribute is read); the empty array
    is always accepted.  The predicate never throws there. *)
Theorem multi_selector_matching (D : Dom) (d : doc D) (parts : list string)
    (extractHtml : value) :
  truthy extractHtml = true ->
  exists b,
    selectorPredicate d extractHtml (SArr parts) = Some b
    /\ (b = true <->
        Forall (fun s => 0 < List.length (query D (Some s) d)) parts).
Proof.
  intros Hmode. unfold selectorPredicate. rewrite Hmode.
  eexists. split; [reflexivity |].
  rewrite all_resolve_spec. split; [now intros [_ H] | now split].
Qed.

(** Two paragraphs match [p], which an array in HTML mode accepts; the
    empty array is accepted as well. *)
Lemma multi_selector_matching_witness :
  selectorPredicate (D := demoDom) demoPage (VBool true)
    (SArr ["h1"; "p"; "aside"]) = Some true
  /\ selectorPredicate (D := demoDom) demoPage (VBool true) (SArr [])
     = Some true.
Proof.
  split.
  - destruct (multi_selector_matching demoDom demoPage ["h1"; "p"; "aside"]
                (VBool true) eq_refl) as (b & Hb & Hiff).
    rewrite Hb. f_equal. apply Hiff.
    repeat constructor; vm_compute; lia.
  - destruct (multi_selector_matching demoDom demoPage [] (VBool true)
                eq_refl) as (b & Hb & Hiff).
    rewrite Hb. f_equal. apply Hiff. constructor.
Defined.

(** X3.  The only way the predicate throws: an array selector outside
    HTML mode whose first entry matches exactly one element and whose
    attribute read is truthy without being a string (the [trim] call
    then fails). *)
Theorem selectorPredicate_throws (D : Dom) (d : doc D) (extractHtml : value)
    (sel : selector) :
  selectorPredicate d extractHtml sel = None <->
  exists parts,
    sel = SArr parts
    /\ truthy extractHtml = false
    /\ List.length (query D (nth_error parts 0) d) = 1
    /\ truthy (get_attr D (query D (nth_error parts 0) d)
                 (nth_error parts 1) d) = true
    /\ forall x,
         get_attr D (query D (nth_error parts 0) d) (nth_error parts 1) d
         <> VStr x.
Proof.
  split.
  - destruct sel as [s | parts];
      cbv beta iota zeta delta [selectorPredicate]; [discriminate |].
    destruct (truthy extractHtml) eqn:Hmode; [discriminate |].
    destruct (List.length (query D (nth_error parts 0) d) =? 1)%nat eqn:Hlen;
      [| discriminate].
    destruct (truthy (get_attr D (query D (nth_error parts 0) d)
                        (nth_error parts 1) d)) eqn:Ht; [| discriminate].
    intros Hnone. exists parts. apply Nat.eqb_eq in Hlen.
    repeat split; try assumption.
    intros x Hx. rewrite Hx in Hnone. discriminate.
  - intros (parts & -> & Hmode & Hlen & Ht & Hnot).
    cbv beta iota zeta delta [selectorPredicate].
    rewrite Hmode. apply Nat.eqb_eq in Hlen. rewrite Hlen, Ht.
    destruct (get_attr D (query D (nth_error parts 0) d) (nth_error parts 1) d)
      as [ | | | | | x | |]; try reflexivity.
    now destruct (Hnot x).
Qed.

(** A one-entry array outside HTML mode: the attribute name is missing,
    the whole attribute object comes back, and trimming it throws. *)
Lemma selectorPredicate_throws_witness :
  selectorPredicate (D := demoDom) demoPage (VBool false) (SArr ["img"]) = None.
Proof.
  apply (proj2 (selectorPredicate_throws demoDom demoPage (VBool false)
                  (SArr ["img"]))).
  exists ["img"]. repeat split. intros x. vm_compute. discriminate.
Defined.

Lemma selectorPredicate_throws_aux (D : Dom) (d : doc D)
    (extractHtml : value) (sel : selector) :
  selectorPredicate d extractHtml sel = None ->
  exists parts, sel = SArr parts /\ truthy extractHtml = false.
Proof.
  destruct sel as [s | parts];
    cbv beta iota zeta delta [selectorPredicate]; [discriminate |].
  destruct (truthy extractHtml); [discriminate |].
  intros _. now exists parts.
Qed.

Lemma array_find_returns {A : Type} (p : A -> option bool) (l : list A) :
  Forall (fun x => p x <> None) l -> exists r, array_find p l = Some r.
Proof.
  induction 1 as [| x l Hx _ IH]; simpl; [now eexists |].
  destruct (p x) as [[|] |]; [now eexists | exact IH | now destruct Hx].
Qed.

(** X4.  [findMatchingSelector] returns (a selector or none) and never
    throws when it runs in HTML mode, and also when every candidate is a
    plain string. *)
Theorem findMatchingSelector_total (D : Dom) (d : doc D)
    (candidates : list selector) (extractHtml : value) :
  truthy extractHtml = true
  \/ Forall (fun c => exists s, c = SStr s) candidates ->
  exists found, findMatchingSelector d candidates extractHtml = Some found.
Proof.
  intros Hsafe. apply array_find_returns. apply Forall_forall.
  intros c Hc Hthrow.
  apply selectorPredicate_throws_aux in Hthrow.
  destruct Hthrow as (parts & -> & Hmode).
  destruct Hsafe as [Hhtml | Hstr]; [congruence |].
  rewrite Forall_forall in Hstr. destruct (Hstr _ Hc) as (s & E). discriminate.
Qed.

Lemma findMatchingSelector_total_witness :
  exists found,
    findMatchingSelector (D := demoDom) demoPage
      [SArr ["img"]; SStr "h1"] (VBool true) = Some found.
Proof.
  apply (findMatchingSelector_total demoDom demoPage
           [SArr ["img"]; SStr "h1"] (VBool true)).
  left. reflexivity.
Defined.

(** ** [extractResult] on the other paths *)

(** X5.  A truthy result of [select] is what [extractResult] returns,
    with the page as [select] left it, whatever the [fallback] option
    says. *)
Theorem extractResult_custom_wins (D : Dom) (C : Collaborators D)
    (ex : Extractor D) (opts : Opts D) (d d' : doc D) (v : value) :
  extractor D opts = Some ex ->
  select C (with_extractionOpts D (rulesFor D ex (type D opts)) opts) d
  = Some (v, d') ->
  truthy v = true ->
  extractResult C opts d = Some (v, d').
Proof.
  intros Hex Hsel Hv.
  rewrite (extractResult_after_select D C ex opts d d' v Hex Hsel).
  now rewrite Hv.
Qed.

Lemma extractResult_custom_wins_witness :
  extractResult demoCollaborators (opts_for headlineTitle "title") demoPage
  = Some (VStr "Breaking News", demoPage).
Proof.
  apply (extractResult_custom_wins demoDom demoCollaborators headlineTitle
           (opts_for headlineTitle "title") demoPage demoPage
           (VStr "Breaking News")); reflexivity.
Defined.

(** X6.  With the fallback switched off (any falsy [fallback] other than
    [undefined]), [extractResult] returns the result of [select] when it
    is truthy and null otherwise: an empty string, a zero or an
    [undefined] from [select] comes out as null. *)
Theorem extractResult_without_fallback (D : Dom) (C : Collaborators D)
    (ex : Extractor D) (opts : Opts D) (d d' : doc D) (v : value) :
  extractor D opts = Some ex ->
  fallback D opts <> VUndefined ->
  truthy (fallback D opts) = false ->
  select C (with_extractionOpts D (rulesFor D ex (type D opts)) opts) d
  = Some (v, d') ->
  extractResult C opts d = Some (if truthy v then v else VNull, d').
Proof.
  intros Hex Hdef Hoff Hsel.
  rewrite (extractResult_after_select D C ex opts d d' v Hex Hsel).
  assert (E : default_to (VBool true) (fallback D opts) = fallback D opts)
    by (destruct (fallback D opts); [now destruct Hdef | reflexivity ..]).
  rewrite E, Hoff. now destruct (truthy v).
Qed.

(** The by-line without a name, with [fallback: null]: the empty string
    the author cleaner returns comes out as null. *)
Lemma extractResult_without_fallback_witness :
  extractResult demoCollaborators
    (with_fallback demoDom VNull (opts_for bylineAuthor "author")) demoPage
  = Some (VNull, demoPage).
Proof.
  assert (Hdef : VNull <> VUndefined) by discriminate.
  exact (extractResult_without_fallback demoDom demoCollaborators bylineAuthor
           (with_fallback demoDom VNull (opts_for bylineAuthor "author"))
           demoPage demoPage (VStr EmptyString) eq_refl Hdef eq_refl eq_refl).
Defined.

(** ** The other paths of [select] *)

(** X7.  In HTML mode with one of the three known content types, a
    [select] that found a selector and returns, returns a string (the
    rendering), never null. *)
Theorem select_html_returns_string (D : Dom) (C : Collaborators D)
    (opts : Opts D) (spec : FieldSpec D) (d d' : doc D) (m : selector)
    (v : value) :
  let extractHtml := default_to (VBool false) (extractHtml D opts) in
  let contentType := default_to (VStr "html") (contentType D opts) in
  extractionOpts D opts = RSpec D spec ->
  truthy extractHtml = true ->
  In contentType [VStr "html"; VStr "text"; VStr "markdown"] ->
  findMatchingSelector d (selectors D spec) extractHtml = Some (Some m) ->
  selector_falsy m = false ->
  select C opts d = Some (v, d') ->
  exists s, v = VStr s.
Proof.
  intros eh ct Hrules Hmode Hct Hfind Hm.
  unfold select. rewrite Hrules. fold eh ct.
  unfold bind at 1. unfold try_gets. rewrite Hfind, Hm, Hmode.
  unfold bind at 1. unfold htmlBranch.
  unfold bind at 1. destruct (htmlRegion m d) as [[region d1] |];
    [| discriminate].
  unfold bind at 1.
  destruct (transformElements C region spec d1) as [[transformed d2] |];
    [| discriminate].
  unfold bind at 1.
  destruct (cleanBySelectors transformed spec d2) as [[cleaned d3] |];
    [| discriminate].
  unfold bind at 1.
  destruct (Cleaners D C (type D opts) (VSel cleaned)
              (SpreadDefaultCleaner D opts
                 (default_to (VBool true) (defaultCleaner D spec))) d3)
    as [[cleanedValue d4] |]; [| discriminate].
  unfold render, gets, ret.
  simpl in Hct. destruct Hct as [E | [E | [E | []]]]; rewrite <- E; simpl;
    intros H; injection H as <- _; now eexists.
Qed.

Lemma select_html_returns_string_witness :
  exists s d',
    select demoCollaborators htmlContentOpts demoPage = Some (VStr s, d').
Proof.
  destruct (select demoCollaborators htmlContentOpts demoPage)
    as [[v d'] |] eqn:Hrun; [| vm_compute in Hrun; discriminate].
  destruct (select_html_returns_string demoDom demoCollaborators
              htmlContentOpts contentRules demoPage d' (SStr "article") v
              eq_refl eq_refl (or_introl eq_refl) eq_refl eq_refl Hrun)
    as (s & ->).
  now exists s, d'.
Defined.

(** X8.  In HTML mode with a content type that is none of [html],
    [text] and [markdown], [select] mutates the page as for a rendering
    and then, instead of rendering, goes on with the text or attribute
    code on the page as mutated. *)
Theorem select_unknown_contentType (D : Dom) (C : Collaborators D)
    (opts : Opts D) (spec : FieldSpec D) (d d1 d2 d3 d4 : doc D)
    (m : selector) (region transformed cleaned : list ref) (v : value) :
  let extractHtml := default_to (VBool false) (extractHtml D opts) in
  let contentType := default_to (VStr "html") (contentType D opts) in
  let defaultCleaner := default_to (VBool true) (defaultCleaner D spec) in
  extractionOpts D opts = RSpec D spec ->
  truthy extractHtml = true ->
  ~ In contentType [VStr "html"; VStr "text"; VStr "markdown"] ->
  findMatchingSelector d (selectors D spec) extractHtml = Some (Some m) ->
  selector_falsy m = false ->
  htmlRegion m d = Some (region, d1) ->
  transformElements C region spec d1 = Some (transformed, d2) ->
  cleanBySelectors transformed spec d2 = Some (cleaned, d3) ->
  Cleaners D C (type D opts) (VSel cleaned)
    (SpreadDefaultCleaner D opts defaultCleaner) d3 = Some (v, d4) ->
  select C opts d = textBranch C opts spec m defaultCleaner d4.
Proof.
  intros eh ct dc Hrules Hmode Hct Hfind Hm Hregion Htransform Hclean Hcleaner.
  assert (Hrender : render C ct v d4 = Some (None, d4)).
  { unfold render.
    assert (Hne : forall lit, ct <> VStr lit -> is_string lit ct = false).
    { intros lit Hlit. destruct ct as [ | | | | | x | |]; try reflexivity.
      simpl. apply String.eqb_neq. congruence. }
    rewrite !Hne; [reflexivity | | |]; intros E; apply Hct; simpl; auto. }
  unfold select. rewrite Hrules. fold eh ct dc.
  unfold bind at 1. unfold try_gets. rewrite Hfind, Hm, Hmode.
  unfold bind at 1. unfold htmlBranch.
  unfold bind at 1. rewrite Hregion.
  unfold bind at 1. rewrite Htransform.
  unfold bind at 1. rewrite Hclean.
  unfold bind at 1. rewrite Hcleaner.
  rewrite Hrender. reflexivity.
Qed.

(** The sample article asked for as [json]: the heading is converted
    and removed by the HTML code, and the text code then reads the
    article without it. *)
Lemma select_unknown_contentType_witness :
  option_map fst
    (select demoCollaborators
       (with_contentType demoDom (VStr "json") htmlContentOpts) demoPage)
  = Some (VStr "Hello worldAd").
Proof.
  erewrite (select_unknown_contentType demoDom demoCollaborators
              (with_contentType demoDom (VStr "json") htmlContentOpts)
              contentRules demoPage); cycle 1.
  - reflexivity.
  - reflexivity.
  - simpl. intros [E | [E | [E | []]]]; discriminate.
  - reflexivity.
  - reflexivity.
  - vm_compute; reflexivity.
  - vm_compute; reflexivity.
  - vm_compute; reflexivity.
  - vm_compute; reflexivity.
  - reflexivity.
Defined.

(** X9.  Outside HTML mode, with rules that have neither a [clean] list
    nor a [transforms] mapping, [select] on a matched string selector
    changes nothing on the page: it hands the trimmed text of the match
    to the field cleaner, or returns it when the rules switch the
    cleaner off. *)
Theorem select_text_readonly (D : Dom) (C : Collaborators D)
    (opts : Opts D) (spec : FieldSpec D) (d : doc D) (s : string) :
  let extractHtml := default_to (VBool false) (extractHtml D opts) in
  let defaultCleaner := default_to (VBool true) (defaultCleaner D spec) in
  extractionOpts D opts = RSpec D spec ->
  clean D spec = None ->
  transforms D spec = None ->
  truthy extractHtml = false ->
  findMatchingSelector d (selectors D spec) extractHtml
  = Some (Some (SStr s)) ->
  s <> EmptyString ->
  select C opts d
  = if truthy defaultCleaner
    then Cleaners D C (type D opts)
           (VStr (trim (text D (query D (Some s) d) d)))
           (SpreadRules D opts spec) d
    else Some (VStr (trim (text D (query D (Some s) d) d)), d).
Proof.
  intros eh dc Hrules Hclean Htransforms Hmode Hfind Hs.
  unfold select. rewrite Hrules. fold eh dc.
  unfold bind at 1. unfold try_gets. rewrite Hfind.
  cbn [selector_falsy]. rewrite (eqb_empty_false s Hs), Hmode.
  unfold bind at 1. unfold ret at 1. unfold textBranch.
  unfold cleanBySelectors, transformElements.
  rewrite Hclean, Htransforms. unfold bind, gets, ret.
  destruct (truthy dc); reflexivity.
Qed.

Lemma select_text_readonly_witness :
  select demoCollaborators
    (with_extractionOpts demoDom (rulesFor demoDom headlineTitle "title")
       (opts_for headlineTitle "title")) demoPage
  = Some (VStr "Breaking News", demoPage).
Proof.
  assert (Hs : "h1" <> EmptyString) by discriminate.
  rewrite (select_text_readonly demoDom demoCollaborators
             (with_extractionOpts demoDom (rulesFor demoDom headlineTitle "title")
                (opts_for headlineTitle "title"))
             (only_selectors [SStr "h1"]) demoPage "h1"
             eq_refl eq_refl eq_refl eq_refl eq_refl Hs).
  reflexivity.
Defined.

(** ** A full run of [extract] *)

(** X10.  With a definition that is not the wildcard and without
    [contentOnly], [extract] returns exactly when its eleven resolutions
    return, one after the other on the page the previous one left, with
    [content] given the title, [lead_image_url], [excerpt] and
    [word_count] given the content, [dek] given content and excerpt, and
    [direction] given the title.  What it returns is the record of the
    twelve keys in a fixed order, [url] and [domain] being read off the
    [url_and_domain] result when that is truthy and off the null pair
    otherwise. *)
Theorem extract_full_run (D : Dom) (C : Collaborators D)
    (ex : Extractor D) (opts : Opts D) (d0 dN : doc D) (r : value) :
  let o := with_extractor D ex opts in
  domain D ex <> "*" ->
  truthy (contentOnly D opts) = false ->
  (extract C (Some ex) opts d0 = Some (r, dN) <->
   exists d1 d2 d3 d4 d5 d6 d7 d8 d9 d10
          title date_published author next_page_url content lead_image_url
          excerpt dek word_count direction found,
     extractResult C (with_type D "title" o) d0 = Some (title, d1)
     /\ extractResult C (with_type D "date_published" o) d1
        = Some (date_published, d2)
     /\ extractResult C (with_type D "author" o) d2 = Some (author, d3)
     /\ extractResult C (with_type D "next_page_url" o) d3
        = Some (next_page_url, d4)
     /\ extractResult C
          (with_title D title (with_extractHtml D (VBool true)
                                 (with_type D "content" o))) d4
        = Some (content, d5)
     /\ extractResult C
          (with_content D content (with_type D "lead_image_url" o)) d5
        = Some (lead_image_url, d6)
     /\ extractResult C (with_content D content (with_type D "excerpt" o)) d6
        = Some (excerpt, d7)
     /\ extractResult C
          (with_excerpt D excerpt
             (with_content D content (with_type D "dek" o))) d7
        = Some (dek, d8)
     /\ extractResult C (with_content D content (with_type D "word_count" o)) d8
        = Some (word_count, d9)
     /\ extractResult C (with_title D title (with_type D "direction" o)) d9
        = Some (direction, d10)
     /\ extractResult C (with_type D "url_and_domain" o) d10 = Some (found, dN)
     /\ r = VObj
              [("title", title);
               ("content", content);
               ("author", author);
               ("date_published", date_published);
               ("lead_image_url", lead_image_url);
               ("dek", dek);
               ("next_page_url", next_page_url);
               ("url",
                get_prop (if truthy found then found else no_url_and_domain)
                  "url");
               ("domain",
                get_prop (if truthy found then found else no_url_and_domain)
                  "domain");
               ("excerpt", excerpt);
               ("word_count", word_count);
               ("direction", direction)]).
Proof.
  intros o Hdom Honly.
  unfold extract. apply String.eqb_neq in Hdom. rewrite Hdom.
  cbn [contentOnly with_extractor]. rewrite Honly. fold o.
  unfold bind, ret. split.
  - intros Hrun.
    destruct (extractResult C (with_type D "title" o) d0)
      as [[title d1] |] eqn:H1; [| discriminate].
    destruct (extractResult C (with_type D "date_published" o) d1)
      as [[date_published d2] |] eqn:H2; [| discriminate].
    destruct (extractResult C (with_type D "author" o) d2)
      as [[author d3] |] eqn:H3; [| discriminate].
    destruct (extractResult C (with_type D "next_page_url" o) d3)
      as [[next_page_url d4] |] eqn:H4; [| discriminate].
    destruct (extractResult C
                (with_title D title (with_extractHtml D (VBool true)
                                       (with_type D "content" o))) d4)
      as [[content d5] |] eqn:H5; [| discriminate].
    destruct (extractResult C
                (with_content D content (with_type D "lead_image_url" o)) d5)
      as [[lead_image_url d6] |] eqn:H6; [| discriminate].
    destruct (extractResult C
                (with_content D content (with_type D "excerpt" o)) d6)
      as [[excerpt d7] |] eqn:H7; [| discriminate].
    destruct (extractResult C
                (with_excerpt D excerpt
                   (with_content D content (with_type D "dek" o))) d7)
      as [[dek d8] |] eqn:H8; [| discriminate].
    destruct (extractResult C
                (with_content D content (with_type D "word_count" o)) d8)
      as [[word_count d9] |] eqn:H9; [| discriminate].
    destruct (extractResult C (with_title D title (with_type D "direction" o)) d9)
      as [[direction d10] |] eqn:H10; [| discriminate].
    destruct (extractResult C (with_type D "url_and_domain" o) d10)
      as [[found d11] |] eqn:H11; [| discriminate].
    injection Hrun as <- <-.
    exists d1, d2, d3, d4, d5, d6, d7, d8, d9, d10,
      title, date_published, author, next_page_url, content, lead_image_url,
      excerpt, dek, word_count, direction, found.
    repeat split; assumption.
  - intros (d1 & d2 & d3 & d4 & d5 & d6 & d7 & d8 & d9 & d10
            & title & date_published & author & next_page_url & content
            & lead_image_url & excerpt & dek & word_count & direction & found
            & H1 & H2 & H3 & H4 & H5 & H6 & H7 & H8 & H9 & H10 & H11 & ->).
    rewrite H1, H2, H3, H4, H5, H6, H7, H8, H9, H10, H11. reflexivity.
Qed.

(** The sample site with a title rule, called with the address of the
    page: the generic address strategy answers, and [url] and [domain]
    are read off its answer. *)
Lemma extract_full_run_witness :
  extract demoCollaborators (Some headlineTitle) opts_with_url demoPage
  = Some (VObj [("title", VStr "Breaking News");
                ("content", VStr "generic content");
                ("author", VStr "generic author");
                ("date_published", VStr "generic date_published");
                ("lead_image_url", VStr "generic lead_image_url");
                ("dek", VStr "generic dek");
                ("next_page_url", VStr "generic next_page_url");
                ("url", VStr "https://example.com/a");
                ("domain", VStr "example.com");
                ("excerpt", VStr "generic excerpt");
                ("word_count", VStr "generic word_count");
                ("direction", VStr "generic direction")], demoPage).
Proof.
  assert (Hdom : domain demoDom headlineTitle <> "*") by discriminate.
  apply (proj2 (extract_full_run demoDom demoCollaborators headlineTitle
                  opts_with_url demoPage demoPage _ Hdom eq_refl)).
  exists demoPage, demoPage, demoPage, demoPage, demoPage, demoPage,
    demoPage, demoPage, demoPage, demoPage,
    (VStr "Breaking News"), (VStr "generic date_published"),
    (VStr "generic author"), (VStr "generic next_page_url"),
    (VStr "generic content"), (VStr "generic lead_image_url"),
    (VStr "generic excerpt"), (VStr "generic dek"),
    (VStr "generic word_count"), (VStr "generic direction"),
    (VObj [("url", VStr "https://example.com/a");
           ("domain", VStr "example.com")]).
  repeat split.
Defined.

(** ** The transform mapping *)

(** X11.  Entries of the [transforms] mapping whose value is neither a
    string nor a function are skipped: a mapping made of such entries
    (the empty mapping included) leaves the page as it was, and
    [transformElements] returns the selection it was given. *)
Theorem transformElements_skips_other (D : Dom) (C : Collaborators D)
    (content : list ref) (spec : FieldSpec D)
    (ts : list (string * transform D)) (d : doc D) :
  transforms D spec = Some ts ->
  Forall (fun e => snd e = TOther D) ts ->
  transformElements C content spec d = Some (content, d).
Proof.
  intros Hts Hother. unfold transformElements. rewrite Hts.
  unfold bind at 1. clear Hts.
  assert (Hloop : forEach (transformEntry C content) ts d = Some (tt, d)).
  { induction Hother as [| [key val] ts Hval _ IH]; [reflexivity |].
    simpl in Hval. subst val. simpl. unfold bind, gets, ret. exact IH. }
  now rewrite Hloop.
Qed.

Lemma transformElements_skips_other_witness :
  transformElements demoCollaborators [7] contentRulesInert demoPage
  = Some ([7], demoPage).
Proof.
  apply (transformElements_skips_other demoDom demoCollaborators [7]
           contentRulesInert
           [("h2", TOther demoDom); ("p", TOther demoDom)] demoPage eq_refl).
  repeat constructor.
Defined.

(** ** The mutators on the tree document *)

(** X12.  On the tree document, with a selector engine that decides the
    joined clean list from an element's own tag and attributes,
    [cleanBySelectors] returns the region it was given and leaves no
    element below the region that the clean list matches. *)
Theorem cleanBySelectors_leaves_no_match (matches : matcher)
    (region : list ref) (spec : FieldSpec (TreeDom matches))
    (cl : list string) (d : tree_doc) :
  clean (TreeDom matches) spec = Some cl ->
  element_local matches (join "," cl) ->
  exists d1,
    cleanBySelectors (D := TreeDom matches) region spec d = Some (region, d1)
    /\ find (TreeDom matches) (join "," cl) region d1 = [].
Proof.
  intros Hclean Hlocal. unfold cleanBySelectors. rewrite Hclean.
  eexists. split; [reflexivity |].
  cbn [remove find TreeDom]. now apply tree_find_after_remove.
Qed.

Lemma cleanBySelectors_leaves_no_match_witness :
  exists d1,
    cleanBySelectors (D := demoDom) [4] (cleanOnly ["p"; "aside"]) demoPage
    = Some ([4], d1)
    /\ find demoDom "p,aside" [4] d1 = []
    /\ tree_text [4] d1 = "  Breaking News  Intro By ".
Proof.
  destruct (cleanBySelectors_leaves_no_match css_lite [4]
              (cleanOnly ["p"; "aside"]) ["p"; "aside"] demoPage eq_refl)
    as (d1 & H1 & H2).
  - intros t a ks ks'. reflexivity.
  - exists d1. split; [exact H1 |]. split; [exact H2 |].
    vm_compute in H1. injection H1 as <-. reflexivity.
Defined.

Lemma mem_app (i : ref) (l1 l2 : list ref) :
  mem i (l1 ++ l2) = mem i l1 || mem i l2.
Proof. apply existsb_app. Qed.

Lemma retag_nothing (tag : string) (n : node) : retag [] tag n = n.
Proof.
  induction n as [s | i t a ks IH] using node_induction; simpl;
    [reflexivity |].
  f_equal. transitivity (map (fun k => k) ks);
    [now apply map_ext_in | apply map_id].
Qed.

Lemma retag_twice (l1 l2 : list ref) (tag : string) (n : node) :
  retag l2 tag (retag l1 tag n) = retag (l1 ++ l2) tag n.
Proof.
  induction n as [s | i t a ks IH] using node_induction; simpl;
    [reflexivity |].
  f_equal.
  - rewrite mem_app. now destruct (mem i l1), (mem i l2).
  - rewrite map_map. now apply map_ext_in.
Qed.

Lemma convert_each (tag : string) (l acc : list ref) (d : tree_doc) :
  forEach (fun node => tree_convertNodeTo [node] tag) l
    (on_forest (map (retag acc tag)) d)
  = Some (tt, on_forest (map (retag (acc ++ l) tag)) d).
Proof.
  revert acc. induction l as [| x l IH]; intros acc; simpl.
  - now rewrite app_nil_r.
  - unfold bind, tree_convertNodeTo, modify.
    replace (on_forest (map (retag [x] tag)) (on_forest (map (retag acc tag)) d))
      with (on_forest (map (retag (acc ++ [x]) tag)) d).
    + rewrite IH. now rewrite <- app_assoc.
    + unfold on_forest. simpl. rewrite !map_map.
      f_equal; apply map_ext; intros n; now rewrite retag_twice.
Qed.

Lemma on_forest_retag_nothing (tag : string) (d : tree_doc) :
  on_forest (map (retag [] tag)) d = d.
Proof.
  destruct d as [doc0 det n]. unfold on_forest. simpl.
  f_equal.
  - transitivity (map (fun k => k) doc0);
      [apply map_ext; apply retag_nothing | apply map_id].
  - transitivity (map (fun k => k) det);
      [apply map_ext; apply retag_nothing | apply map_id].
Qed.

Section ConvertOnce.

Variable matches : matcher.
Variable q : string.
Variable tag : string.
Variable ctx : list ref.
Variable converted : list ref.

Hypothesis q_local : element_local matches q.
Hypothesis q_rejects_tag : forall a ks, matches q tag a ks = false.

(** Once every match below the context carries the new tag, none is
    left. *)
Lemma retagged_node_clean (n : node) :
  forall inside,
    (forall i, In i (matching_below matches q ctx inside n) ->
               In i converted) ->
    matching_below matches q ctx inside (retag converted tag n) = [].
Proof.
  induction n as [s | i t a ks IH] using node_induction; intros inside Hall;
    simpl; [reflexivity |].
  assert (Hkids : flat_map (matching_below matches q ctx (inside || mem i ctx))
                    (map (retag converted tag) ks) = []).
  { rewrite flat_map_concat_map, map_map, <- flat_map_concat_map.
    apply flat_map_nil_each. intros k Hk. apply (IH k Hk).
    intros j Hj. apply Hall. simpl. apply in_or_app. right.
    apply in_flat_map. now exists k. }
  rewrite Hkids, app_nil_r.
  destruct (mem i converted) eqn:Hmem.
  - rewrite q_rejects_tag. now rewrite andb_false_r.
  - rewrite (q_local t a (map (retag converted tag) ks) ks).
    destruct (inside && matches q t a ks) eqn:Hhit; [| reflexivity].
    exfalso. assert (Hin : In i converted).
    { apply Hall. simpl. rewrite Hhit. now left. }
    apply mem_In in Hin. congruence.
Qed.

End ConvertOnce.

(** X13.  On the tree document, with [convertNodeTo] renaming the tag
    of an element: a [transforms] mapping with the single entry
    [q: tag], where the engine decides [q] from an element's own tag
    and attributes and [q] does not match elements of tag [tag],
    returns the region it was given and leaves no element below the
    region that [q] matches. *)
Theorem transformElements_leaves_no_source (matches : matcher)
    (C : Collaborators (TreeDom matches)) (region : list ref)
    (spec : FieldSpec (TreeDom matches)) (q tag : string) (d : tree_doc) :
  convertNodeTo (TreeDom matches) C = tree_convertNodeTo ->
  transforms (TreeDom matches) spec
  = Some [(q, TString (TreeDom matches) tag)] ->
  element_local matches q ->
  (forall a ks, matches q tag a ks = false) ->
  exists d1,
    transformElements C region spec d = Some (region, d1)
    /\ find (TreeDom matches) q region d1 = [].
Proof.
  intros Hconvert Hts Hlocal Hrejects.
  unfold transformElements. rewrite Hts.
  unfold forEach at 1, transformEntry. rewrite Hconvert.
  unfold bind, gets, ret. cbn [find TreeDom].
  pose proof (convert_each tag (tree_find matches q region d) [] d) as Hrun.
  rewrite on_forest_retag_nothing in Hrun. simpl app in Hrun.
  change (doc (TreeDom matches)) with tree_doc in *.
  cbv beta. rewrite Hrun.
  eexists. split; [reflexivity |].
  unfold tree_find. destruct (q =? EmptyString); [reflexivity |].
  unfold on_forest, forest. simpl. rewrite <- map_app.
  rewrite flat_map_concat_map, map_map, <- flat_map_concat_map.
  apply flat_map_nil_each. intros n Hn.
  apply retagged_node_clean; [exact Hlocal | exact Hrejects |].
  intros i Hi. apply in_flat_map. now exists n.
Qed.

(** The sample article with [h2] turned into [h3]: no [h2] is left and
    the text is unchanged. *)
Lemma transformElements_leaves_no_source_witness :
  exists d1,
    transformElements demoCollaborators [7] contentRules demoPage
    = Some ([7], d1)
    /\ find demoDom "h2" [7] d1 = []
    /\ find demoDom "h3" [7] d1 = [8].
Proof.
  destruct (transformElements_leaves_no_source css_lite demoCollaborators [7]
              contentRules "h2" "h3" demoPage eq_refl eq_refl)
    as (d1 & H1 & H2).
  - intros t a ks ks'. reflexivity.
  - intros a ks. reflexivity.
  - exists d1. split; [exact H1 |]. split; [exact H2 |].
    vm_compute in H1. injection H1 as <-. reflexivity.
Defined.
